(** * pylarexx: the data listeners of [datalogger/DataListener.py]

    A shallow embedding of the two stateful listeners, the live-query
    cache ([RecentValuesListener]) and the MQTT publisher ([MQTTListener]),
    and the properties of their state machines.

    Python values are modelled as follows.
    - integers are [Z];
    - [str] is [string], restricted to ASCII for [str.lower];
    - a [dict] is an association list in insertion order with unique keys
      ([PyDict]): assigning to a present key keeps its position, assigning to
      an absent key appends, as CPython's dict does;
    - a [float] is a sign, a binary mantissa and an exponent ([pyfloat]), so
      that the [%f] conversions can be computed exactly;
    - code that can raise runs in a state-and-exception monad ([M]) whose
      state records every log call and every call handed to the transport. *)

From Stdlib Require Import ZArith NArith List String Ascii Bool Lia.
From Stdlib Require Import DecimalString DecimalPos DecimalZ.
Import ListNotations.
Open Scope string_scope.
Open Scope Z_scope.

(** ** Python's string conversions *)

Module PyFormat.

(** [ "%d" % z ] and [str(z)] for an integer. *)
Definition fmt_d (z : Z) : string :=
  NilZero.string_of_int (Z.to_int z).

(** A Python float: finite values are [(-1)^neg * m * 2^e]. *)
Inductive pyfloat : Type :=
| Finite (neg : bool) (m : N) (e : Z)
| Inf (neg : bool)
| NaN.

(** [m * 2^e * 10^p] rounded to the nearest integer, ties to even: the
    correctly rounded conversion CPython's [%.pf] performs. *)
Definition round_half_even_scaled (m : N) (e : Z) (p : nat) : Z :=
  let num := Z.of_N m * 10 ^ Z.of_nat p in
  if 0 <=? e then num * 2 ^ e
  else
    let den := 2 ^ (- e) in
    let q := num / den in
    let r := num mod den in
    match 2 * r ?= den with
    | Lt => q
    | Gt => q + 1
    | Eq => if Z.even q then q else q + 1
    end.

Fixpoint zeros (n : nat) : string :=
  match n with
  | O => EmptyString
  | S n' => String "0" (zeros n')
  end.

(** The decimal digits of [z], left-padded with zeros to width [p]. *)
Definition pad_digits (p : nat) (z : Z) : string :=
  let s := NilEmpty.string_of_uint (N.to_uint (Z.to_N z)) in
  zeros (p - String.length s) ++ s.

(** [ "%.pf" % x ]. *)
Definition fmt_fixed (p : nat) (x : pyfloat) : string :=
  match x with
  | NaN => "nan"
  | Inf neg => if neg then "-inf" else "inf"
  | Finite neg m e =>
      let n := round_half_even_scaled m e p in
      let scale := 10 ^ Z.of_nat p in
      let body :=
        match p with
        | O => fmt_d n
        | _ => fmt_d (n / scale) ++ "." ++ pad_digits p (n mod scale)
        end in
      if neg then "-" ++ body else body
  end.

(** [ "%f" % x ]: six decimals. *)
Definition fmt_f : pyfloat -> string := fmt_fixed 6.

(** [ "%.2f" % x ]. *)
Definition fmt_2f : pyfloat -> string := fmt_fixed 2.

(** [str.lower] on ASCII text. *)
Definition lower_ascii (c : ascii) : ascii :=
  let n := nat_of_ascii c in
  if andb (Nat.leb 65 n) (Nat.leb n 90) then ascii_of_nat (n + 32) else c.

Fixpoint lower (s : string) : string :=
  match s with
  | EmptyString => EmptyString
  | String c s' => String (lower_ascii c) (lower s')
  end.

(** [sep.join(l)]. *)
Fixpoint join (sep : string) (l : list string) : string :=
  match l with
  | [] => ""
  | [x] => x
  | x :: rest => x ++ sep ++ join sep rest
  end.

End PyFormat.

(** ** Python's dict, keyed by integers *)

Module PyDict.

Section Dict.
Context {V : Type}.

Definition dict : Type := list (Z * V).

Definition empty : dict := [].

(** [d.get(k)], [None] when [d[k]] raises [KeyError]. *)
Fixpoint get (d : dict) (k : Z) : option V :=
  match d with
  | [] => None
  | (k', v) :: rest => if Z.eqb k' k then Some v else get rest k
  end.

(** [d[k] = v]. *)
Fixpoint set (d : dict) (k : Z) (v : V) : dict :=
  match d with
  | [] => [(k, v)]
  | (k', v') :: rest =>
      if Z.eqb k' k then (k, v) :: rest else (k', v') :: set rest k v
  end.

Definition keys (d : dict) : list Z := map fst d.

Definition contains (d : dict) (k : Z) : bool :=
  match get d k with Some _ => true | None => false end.

End Dict.

Arguments dict V : clear implicits.

End PyDict.

(** ** Sensors, readings and listener parameters *)

(** The sensor object handed to [onNewData]; [rawToCooked] is the sensor's
    own conversion of a raw value. *)
Record Sensor : Type := {
  id : Z;
  displayid : Z;
  name : string;
  type : string;
  unit : string;
  manufacturerType : string;
  rawToCooked : Z -> PyFormat.pyfloat
}.

(** The [data] dict handed to [onNewData]. The keys ["rawvalue"],
    ["timestamp"] and ["signal"] are always present; [signal] is [None] for
    Python's [None]. The key ["sensor"] is read by the homie publisher only;
    [sensor_key] is [None] when the dict has no such key. *)
Record Data : Type := {
  rawvalue : Z;
  timestamp : Z;
  signal : option Z;
  sensor_key : option Sensor
}.

(** [self.params], a dict of strings read with [params.get(key, default)]. *)
Definition Params : Type := list (string * string).

Fixpoint params_get (p : Params) (key default : string) : string :=
  match p with
  | [] => default
  | (k, v) :: rest =>
      if String.eqb k key then v else params_get rest key default
  end.

Inductive Level : Type := DEBUG | INFO | ERROR.

Definition nl : string := String (ascii_of_nat 10) EmptyString.

(** ** RecentValuesListener: the live-query cache *)

Module RecentValuesListener.

(** What the [try] block of [openListeningPort] does on one attempt: the
    server constructor raises (the bind failed), the thread cannot be
    started, or the server is serving. *)
Inductive bind_outcome : Type := ServerRaises | ThreadRaises | Started.

(** The operating system, as seen by the listener: the outcome of the
    [n]-th attempt to open the port. *)
Definition Network : Type := nat -> bind_outcome.

Inductive Event : Type :=
| Log (level : Level) (template : string)
| Bind (attempt : nat) (outcome : bind_outcome).

Record state : Type := {
  values : PyDict.dict Data;
  sensors : PyDict.dict Sensor;
  ready : bool;
  server : option nat;
  attempts : nat;
  events : list Event
}.

Definition log (l : Level) (template : string) (st : state) : state :=
  {| values := values st; sensors := sensors st; ready := ready st;
     server := server st; attempts := attempts st;
     events := events st ++ [Log l template] |}.

(** [ThreadedTCPRequestHandler.setup]: the response written to a client
    that connects, [None] when [sensors[sid]] raises [KeyError]. *)
Definition signaltext (data : Data) : string :=
  match signal data with
  | None => "-"
  | Some s => PyFormat.fmt_d s
  end.

Definition line (sensor : Sensor) (data : Data) : string :=
  PyFormat.fmt_d (displayid sensor) ++ "," ++
  PyFormat.fmt_f (rawToCooked sensor (rawvalue data)) ++ " " ++
  unit sensor ++ "," ++
  PyFormat.fmt_d (timestamp data) ++ "," ++
  signaltext data ++ "," ++
  type sensor ++ "," ++
  name sensor ++ "," ++
  PyFormat.fmt_d (id sensor) ++ nl.

Fixpoint render (sensors : PyDict.dict Sensor) (items : list (Z * Data))
  (response : string) : option string :=
  match items with
  | [] => Some response
  | (sid, data) :: rest =>
      match PyDict.get sensors sid with
      | None => None
      | Some sensor => render sensors rest (response ++ line sensor data)
      end
  end.

Definition setup (st : state) : option string :=
  render (sensors st) (values st) "".

(** [openListeningPort]. The handler class closes over the two dicts of the
    listener, which are mutated in place, so a handler always reads the
    current [values] and [sensors] of the state. *)
Definition openListeningPort (net : Network) (st : state) : state :=
  let n := attempts st in
  let st1 := log INFO "Creating TCP server at %s:%s" st in
  match net n with
  | ServerRaises =>
      log ERROR "Unable to start TCP Server: %s"
        {| values := values st1; sensors := sensors st1; ready := ready st1;
           server := server st1; attempts := S n;
           events := events st1 ++ [Bind n ServerRaises] |}
  | ThreadRaises =>
      log ERROR "Unable to start TCP Server: %s"
        (log DEBUG "Starting TCP server"
          {| values := values st1; sensors := sensors st1; ready := ready st1;
             server := Some n; attempts := S n;
             events := events st1 ++ [Bind n ThreadRaises] |})
  | Started =>
      let st2 :=
        log DEBUG "Starting TCP server"
          {| values := values st1; sensors := sensors st1; ready := ready st1;
             server := Some n; attempts := S n;
             events := events st1 ++ [Bind n Started] |} in
      {| values := values st2; sensors := sensors st2; ready := true;
         server := server st2; attempts := attempts st2;
         events := events st2 |}
  end.

(** [__init__]. *)
Definition init (net : Network) : state :=
  let st := openListeningPort net
    {| values := PyDict.empty; sensors := PyDict.empty; ready := false;
       server := None; attempts := O; events := [] |} in
  {| values := values st; sensors := sensors st; ready := ready st;
     server := None; attempts := attempts st; events := events st |}.

(** [onNewData]. *)
Definition onNewData (net : Network) (data : Data) (sensor : Sensor)
  (st : state) : state :=
  let st1 :=
    {| values := PyDict.set (values st) (id sensor) data;
       sensors := sensors st; ready := ready st; server := server st;
       attempts := attempts st; events := events st |} in
  let st2 :=
    {| values := values st1;
       sensors := PyDict.set (sensors st1) (id sensor) sensor;
       ready := ready st1; server := server st1;
       attempts := attempts st1; events := events st1 |} in
  if negb (ready st2) then openListeningPort net st2 else st2.

(** A run of the acquisition loop: the readings are delivered in order. *)
Fixpoint deliver (net : Network) (rs : list (Data * Sensor)) (st : state)
  : state :=
  match rs with
  | [] => st
  | (data, sensor) :: rest => deliver net rest (onNewData net data sensor st)
  end.

End RecentValuesListener.

(** ** MQTTListener: the discovery and state publisher *)

Module MQTTListener.

(** The payload handed to [publish]: a plain string, or [json.dumps] of a
    dict of strings, kept as the dict it serialises. *)
Inductive Payload : Type :=
| Text (s : string)
| Json (d : list (string * string)).

Record Msg : Type := {
  topic : string;
  payload : Payload;
  qos : Z;
  retain : bool
}.

(** The broker and the client library, as seen by the listener: whether
    [connect] and [loop_start] return, and whether the [n]-th call of
    [publish] in the life of the process returns ([true]) or raises. *)
Record Broker : Type := {
  connect_ok : bool;
  loop_start_ok : bool;
  publish_ok : nat -> bool
}.

Inductive Event : Type :=
| Log (level : Level) (template : string)
| Connect (ok : bool)
| LoopStart (ok : bool)
| Publish (m : Msg) (ok : bool).

Record state : Type := {
  params : Params;
  values : PyDict.dict Data;
  ready : bool;
  calls : nat;
  events : list Event
}.

Inductive exn : Type := KeyError | TransportError.

Inductive result (A : Type) : Type :=
| Ok (a : A)
| Raise (e : exn).
Arguments Ok {A} a.
Arguments Raise {A} e.

(** Statements that read and write the listener and may raise. *)
Definition M (A : Type) : Type := state -> result A * state.

Definition ret {A : Type} (a : A) : M A := fun st => (Ok a, st).

Definition bind {A B : Type} (m : M A) (f : A -> M B) : M B :=
  fun st =>
    match m st with
    | (Ok a, st') => f a st'
    | (Raise e, st') => (Raise e, st')
    end.

Definition raise {A : Type} (e : exn) : M A := fun st => (Raise e, st).

(** [try: body except Exception as e: handler]. *)
Definition try_except (body : M Datatypes.unit)
  (handler : exn -> M Datatypes.unit) : M Datatypes.unit :=
  fun st =>
    match body st with
    | (Ok a, st') => (Ok a, st')
    | (Raise e, st') => handler e st'
    end.

Notation "x <- m ;; k" := (bind m (fun x => k))
  (at level 61, m at next level, right associativity).
Notation "m ;; k" := (bind m (fun _ => k))
  (at level 61, right associativity).

Definition emit (ev : Event) (st : state) : state :=
  {| params := params st; values := values st; ready := ready st;
     calls := calls st; events := events st ++ [ev] |}.

Definition log (l : Level) (template : string) : M Datatypes.unit :=
  fun st => (Ok tt, emit (Log l template) st).

(** [self.mqttClient.publish(topic, payload, qos, retain)]. *)
Definition publish (b : Broker) (t : string) (p : Payload) (q : Z)
  (r : bool) : M Datatypes.unit :=
  fun st =>
    let ok := publish_ok b (calls st) in
    let st' :=
      {| params := params st; values := values st; ready := ready st;
         calls := S (calls st);
         events := events st ++
           [Publish {| topic := t; payload := p; qos := q; retain := r |} ok]
      |} in
    ((if ok then Ok tt else Raise TransportError), st').

Definition set_ready : M Datatypes.unit :=
  fun st =>
    (Ok tt,
     {| params := params st; values := values st; ready := true;
        calls := calls st; events := events st |}).

Definition mqtt_connect (b : Broker) : M Datatypes.unit :=
  fun st =>
    ((if connect_ok b then Ok tt else Raise TransportError),
     emit (Connect (connect_ok b)) st).

Definition loop_start (b : Broker) : M Datatypes.unit :=
  fun st =>
    ((if loop_start_ok b then Ok tt else Raise TransportError),
     emit (LoopStart (loop_start_ok b)) st).

(** [connect]. *)
Definition connect (b : Broker) (st : state) : state :=
  snd (try_except
    (log INFO "Connecting to mqtt broker at %s:%s" ;;
     mqtt_connect b ;;
     loop_start b ;;
     set_ready)
    (fun _ => log ERROR "Unable to communicate with mqtt broker: %s") st).

(** [__init__]. *)
Definition init (b : Broker) (p : Params) : state :=
  connect b
    {| params := p; values := PyDict.empty; ready := false; calls := O;
       events := [] |}.

(** The first-seen test of both publishers:
    [try: self.values[sensor.displayid] except: newSensor = True]. *)
Definition is_new (st : state) (sensor : Sensor) : bool :=
  negb (PyDict.contains (values st) (displayid sensor)).

(** The config payload of the home-assistant convention. *)
Definition ha_unit (sensor : Sensor) : string :=
  if String.eqb (unit sensor) "%RH" then "%" else unit sensor.

Definition ha_stype (sensor : Sensor) : string :=
  let stype := PyFormat.lower (type sensor) in
  if String.eqb stype "relative humidity" then "humidity" else stype.

Definition ha_config_payload (topicstate : string) (sensor : Sensor)
  : list (string * string) :=
  [ ("name", name sensor ++ " " ++ type sensor);
    ("device_class", ha_stype sensor);
    ("state_topic", topicstate);
    ("unit_of_measurement", ha_unit sensor);
    ("value_template", "{{value_json." ++ ha_stype sensor ++ "}}") ].

Definition ha_state_payload (data : Data) (sensor : Sensor)
  : list (string * string) :=
  [ (PyFormat.lower (type sensor),
     PyFormat.fmt_2f (rawToCooked sensor (rawvalue data))) ].

Definition ha_topic (p : Params) (sensor : Sensor) (leaf : string) : string :=
  (params_get p "mqtt_base_topic" "homeassistant" ++ "/" ++ "sensor")
  ++ "/" ++ params_get p "mqtt_device" "pylarexx" ++ "_"
  ++ PyFormat.fmt_d (displayid sensor) ++ "/" ++ leaf.

(** [sendHomeAssistantMessage]. *)
Definition sendHomeAssistantMessage (b : Broker) (data : Data)
  (sensor : Sensor) (st : state) : state :=
  let newSensor := is_new st sensor in
  if ready st then
    snd (try_except
      (let topicconfig := ha_topic (params st) sensor "config" in
       let topicstate := ha_topic (params st) sensor "state" in
       (if newSensor then
          log DEBUG "New Sensor config" ;;
          publish b topicconfig
            (Json (ha_config_payload topicstate sensor)) 0 true
        else ret tt) ;;
       publish b topicstate (Json (ha_state_payload data sensor)) 0 false)
      (fun _ => log ERROR "Error publishing mqtt messages: %s") st)
  else st.

(** The topics of the homie convention. *)
Definition homie_root (p : Params) : string :=
  params_get p "mqtt_base_topic" "homie" ++ "/"
  ++ params_get p "mqtt_device" "pylarexx".

Definition homie_node (topicroot : string) (sid : Z) : string :=
  topicroot ++ "/sensor_" ++ PyFormat.fmt_d sid.

(** The seven messages of one sensor: its description and its value. *)
Definition homie_sensor_messages (b : Broker) (topicroot : string) (sid : Z)
  (s : Sensor) (raw : Z) : M Datatypes.unit :=
  let node := homie_node topicroot sid in
  let prop := node ++ "/" ++ PyFormat.lower (type s) in
  publish b (node ++ "/$type") (Text (manufacturerType s)) 0 false ;;
  publish b (node ++ "/$name") (Text (name s)) 0 false ;;
  publish b (node ++ "/$properties") (Text (PyFormat.lower (type s))) 0 false ;;
  publish b (prop ++ "/$name") (Text (name s ++ " " ++ type s)) 0 false ;;
  publish b (prop ++ "/$datatype") (Text "float") 0 false ;;
  publish b (prop ++ "/$unit") (Text (unit s)) 0 false ;;
  publish b prop (Text (PyFormat.fmt_2f (rawToCooked s raw))) 0 false.

(** The second loop of the new-sensor branch,
    [for sid, value in self.values.items()]; [value["sensor"]] raises
    [KeyError] when the reading carries no sensor. *)
Fixpoint homie_all_sensors (b : Broker) (topicroot : string)
  (items : list (Z * Data)) : M Datatypes.unit :=
  match items with
  | [] => ret tt
  | (sid, value) :: rest =>
      log DEBUG "Sending MQTT sensor values" ;;
      match sensor_key value with
      | None => raise KeyError
      | Some s => homie_sensor_messages b topicroot sid s (rawvalue value)
      end ;;
      homie_all_sensors b topicroot rest
  end.

(** The [$nodes] payload: the first loop of the new-sensor branch. *)
Definition nodestring (vals : PyDict.dict Data) : string :=
  PyFormat.join ","
    (map (fun sid => "sensor_" ++ PyFormat.fmt_d sid) (PyDict.keys vals)).

(** The four device-level messages. *)
Definition homie_device_messages (b : Broker) (topicroot : string)
  : M Datatypes.unit :=
  fun st =>
    (publish b (topicroot ++ "/$homie")
       (Text (params_get (params st) "homie_convention_version" "3.0"))
       0 true ;;
     publish b (topicroot ++ "/$name")
       (Text (params_get (params st) "mqtt_device_name"
                "Python MQTT Adapter for Arexx Multilogger"))
       0 true ;;
     publish b (topicroot ++ "/$nodes") (Text (nodestring (values st)))
       0 true ;;
     publish b (topicroot ++ "/$state") (Text "ready") 0 true) st.

(** [sendHomieMessages]. *)
Definition sendHomieMessages (b : Broker) (data : Data) (sensor : Sensor)
  (st : state) : state :=
  let newSensor := is_new st sensor in
  let st1 :=
    {| params := params st;
       values := PyDict.set (values st) (displayid sensor) data;
       ready := ready st; calls := calls st; events := events st |} in
  if ready st1 then
    snd (try_except
      (let topicroot := homie_root (params st1) in
       log DEBUG "publishing MQTT messages with topic root %s" ;;
       if newSensor then
         log DEBUG "Updating MQTT device" ;;
         homie_device_messages b topicroot ;;
         (fun st2 => homie_all_sensors b topicroot (values st2) st2)
       else
         log DEBUG "Sending MQTT sensor values" ;;
         homie_sensor_messages b topicroot (displayid sensor) sensor
           (rawvalue data))
      (fun _ => log ERROR "Error publishing mqtt messages: %s") st1)
  else st1.

(** [onNewData]. *)
Definition onNewData (b : Broker) (data : Data) (sensor : Sensor)
  (st : state) : state :=
  let payloadFormat :=
    params_get (params st) "payload_format" "home-assistant" in
  let st1 :=
    if String.eqb payloadFormat "homie"
    then sendHomieMessages b data sensor st else st in
  if String.eqb payloadFormat "home-assistant"
  then sendHomeAssistantMessage b data sensor st1 else st1.

(** A run of the acquisition loop: the readings are delivered in order. *)
Fixpoint deliver (b : Broker) (rs : list (Data * Sensor)) (st : state)
  : state :=
  match rs with
  | [] => st
  | (data, sensor) :: rest => deliver b rest (onNewData b data sensor st)
  end.

(** The messages handed to the transport, in order, each with whether the
    call returned. *)
Fixpoint published (evs : list Event) : list (Msg * bool) :=
  match evs with
  | [] => []
  | Publish m ok :: rest => (m, ok) :: published rest
  | _ :: rest => published rest
  end.

Definition topics (evs : list Event) : list string :=
  map (fun mo => topic (fst mo)) (published evs).

Definition count_topic (t : string) (evs : list Event) : nat :=
  List.length (filter (String.eqb t) (topics evs)).

(** The number of calls of [mqttClient.connect]. *)
Fixpoint connects (evs : list Event) : nat :=
  match evs with
  | [] => O
  | Connect _ :: rest => S (connects rest)
  | _ :: rest => connects rest
  end.

(** What a call added to the trace: the events of [st'] after those of
    [st]. *)
Definition emitted (st st' : state) : list Event :=
  skipn (List.length (events st)) (events st').

(** The topics of the device-level messages of the homie convention. *)
Definition device_topics (p : Params) : list string :=
  [ homie_root p ++ "/$homie"; homie_root p ++ "/$name";
    homie_root p ++ "/$nodes"; homie_root p ++ "/$state" ].

(** A discovery message for [sensor] in the convention in use: a
    device-level message under homie, the sensor's config message
    otherwise. *)
Definition is_announcement (p : Params) (sensor : Sensor) (m : Msg) : bool :=
  if String.eqb (params_get p "payload_format" "home-assistant") "homie"
  then existsb (String.eqb (topic m)) (device_topics p)
  else String.eqb (topic m) (ha_topic p sensor "config").

Definition announcements (p : Params) (sensor : Sensor) (evs : list Event)
  : list (Msg * bool) :=
  filter (fun mo => is_announcement p sensor (fst mo)) (published evs).

(** Some call of [publish] in the trace raised. *)
Definition failed (evs : list Event) : bool :=
  existsb (fun mo => negb (snd mo)) (published evs).

Definition is_error (ev : Event) : bool :=
  match ev with
  | Log ERROR _ => true
  | _ => false
  end.

(** Some call of [logging.error] is in the trace. *)
Definition logged_error (evs : list Event) : bool := existsb is_error evs.

Definition is_ok {A : Type} (r : result A) : bool :=
  match r with
  | Ok _ => true
  | Raise _ => false
  end.

(** [d[key]] for a payload dict. *)
Fixpoint json_field (key : string) (d : list (string * string))
  : option string :=
  match d with
  | [] => None
  | (k, v) :: rest => if String.eqb k key then Some v else json_field key rest
  end.

(** A broker that accepts the connection and every message. *)
Definition reliable : Broker :=
  {| connect_ok := true; loop_start_ok := true; publish_ok := fun _ => true |}.

End MQTTListener.

(** ** Sample sensors and readings *)

Definition tenths (raw : Z) : PyFormat.pyfloat :=
  (* raw / 10 for the multiples of ten used below *)
  PyFormat.Finite (raw <? 0) (Z.abs_N (raw / 10)) 0.

Definition garden : Sensor :=
  {| id := 1; displayid := 3; name := "Garden"; type := "Relative Humidity";
     unit := "%RH"; manufacturerType := "TSN-TH70E";
     rawToCooked := tenths |}.

Definition office : Sensor :=
  {| id := 2; displayid := 7; name := "Office"; type := "Temperature";
     unit := "C"; manufacturerType := "TL-3TSN";
     rawToCooked := tenths |}.

Definition reading (raw ts : Z) : Data :=
  {| rawvalue := raw; timestamp := ts; signal := None; sensor_key := None |}.

Definition reading_of (s : Sensor) (raw ts : Z) : Data :=
  {| rawvalue := raw; timestamp := ts; signal := None; sensor_key := Some s |}.

(** A broker that refuses the connection. *)
Definition unreachable_broker : MQTTListener.Broker :=
  {| MQTTListener.connect_ok := false;
     MQTTListener.loop_start_ok := true;
     MQTTListener.publish_ok := fun _ => true |}.

(** A broker whose first [publish] raises and whose later ones return. *)
Definition flaky_broker : MQTTListener.Broker :=
  {| MQTTListener.connect_ok := true;
     MQTTListener.loop_start_ok := true;
     MQTTListener.publish_ok := fun n => Nat.ltb 0 n |}.

(** The statement of the once-only rule for a topic: at most one call of
    [publish] on it in the whole trace. *)
Definition published_at_most_once (t : string) (evs : list MQTTListener.Event)
  : Prop :=
  (MQTTListener.count_topic t evs <= 1)%nat.

(** A float whose value is the integer [z]. *)
Definition represents_int (x : PyFormat.pyfloat) (z : Z) : Prop :=
  match x with
  | PyFormat.Finite neg m e =>
      neg = (z <? 0) /\
      Z.of_N m * 2 ^ (Z.max e 0) = Z.abs z * 2 ^ (Z.max (- e) 0)
  | _ => False
  end.

(** The last reading delivered for sensor id [sid] in a run, with the
    sensor object that came with it. *)
Fixpoint latest (rs : list (Data * Sensor)) (sid : Z)
  : option (Data * Sensor) :=
  match rs with
  | [] => None
  | (d, s) :: rest =>
      match latest rest sid with
      | Some r => Some r
      | None => if Z.eqb (id s) sid then Some (d, s) else None
      end
  end.

(** The lines of a snapshot, one per entry of [values], in dict order. *)
Definition snapshot_lines (st : RecentValuesListener.state) : list string :=
  map (fun kv =>
         match PyDict.get (RecentValuesListener.sensors st) (fst kv) with
         | Some s => RecentValuesListener.line s (snd kv)
         | None => ""
         end)
      (RecentValuesListener.values st).

Definition join_lines (l : list string) : string :=
  fold_right String.append "" l.

(** What one attempt to open the port adds to the trace. *)
Definition attempt_trace (n : nat) (o : RecentValuesListener.bind_outcome)
  : list RecentValuesListener.Event :=
  match o with
  | RecentValuesListener.ServerRaises =>
      [ RecentValuesListener.Log INFO "Creating TCP server at %s:%s";
        RecentValuesListener.Bind n o;
        RecentValuesListener.Log ERROR "Unable to start TCP Server: %s" ]
  | RecentValuesListener.ThreadRaises =>
      [ RecentValuesListener.Log INFO "Creating TCP server at %s:%s";
        RecentValuesListener.Bind n o;
        RecentValuesListener.Log DEBUG "Starting TCP server";
        RecentValuesListener.Log ERROR "Unable to start TCP Server: %s" ]
  | RecentValuesListener.Started =>
      [ RecentValuesListener.Log INFO "Creating TCP server at %s:%s";
        RecentValuesListener.Bind n o;
        RecentValuesListener.Log DEBUG "Starting TCP server" ]
  end.

Definition is_started (o : RecentValuesListener.bind_outcome) : bool :=
  match o with RecentValuesListener.Started => true | _ => false end.

(** Every statement of the publishers leaves [params], [values] and [ready]
    alone and only adds to the trace; [emits P m] says moreover that each
    message [m] hands to the transport satisfies [P], and that [m] returns
    normally after a failed [publish] only if an error was logged. *)
Definition event_sat (P : MQTTListener.Msg -> Prop) (ev : MQTTListener.Event)
  : Prop :=
  match ev with
  | MQTTListener.Publish m _ => P m
  | _ => True
  end.

Definition emits {A : Type} (P : MQTTListener.Msg -> Prop)
  (m : MQTTListener.M A) : Prop :=
  forall st,
    MQTTListener.params (snd (m st)) = MQTTListener.params st /\
    MQTTListener.values (snd (m st)) = MQTTListener.values st /\
    MQTTListener.ready (snd (m st)) = MQTTListener.ready st /\
    exists X,
      MQTTListener.events (snd (m st)) = (MQTTListener.events st ++ X)%list
      /\ Forall (event_sat P) X
      /\ (MQTTListener.is_ok (fst (m st)) = true ->
          MQTTListener.failed X = true ->
          MQTTListener.logged_error X = true).

(** ** FileOutListener: the flat-file sink *)

Module FileOutListener.

(** The file system, as seen by the listener: whether the [n]-th call of
    [open(filename, "a")] returns a file, and whether the [n]-th call of
    [fd.write] returns. *)
Record FileSystem : Type := {
  open_ok : nat -> bool;
  write_ok : nat -> bool
}.

Inductive Event : Type :=
| Log (level : Level) (template : string)
| Open (attempt : nat) (ok : bool)
| Write (text : string) (ok : bool).

(** [fd] is [None] until [self.fd] is assigned; [written] is the text
    handed to [fd.write] so far by calls that returned. *)
Record state : Type := {
  status : string;
  fd : option nat;
  opens : nat;
  writes : nat;
  written : string;
  events : list Event
}.

(** What a method call does to its caller. *)
Inductive outcome : Type := Returns | Raises (exception : string).

(** [openLogfile]. *)
Definition openLogfile (fs : FileSystem) (st : state) : state :=
  let n := opens st in
  if open_ok fs n then
    {| status := "ready"; fd := Some n; opens := S n; writes := writes st;
       written := written st; events := events st ++ [Open n true] |}
  else
    {| status := "error"; fd := fd st; opens := S n; writes := writes st;
       written := written st;
       events := events st ++
         [Open n false;
          Log ERROR "FileOutListener: Unable to open file %s. Error message: %s"]
    |}.

(** [__init__]. *)
Definition init (fs : FileSystem) : state :=
  openLogfile fs
    {| status := "not initialized"; fd := None; opens := O; writes := O;
       written := ""; events := [] |}.

Definition signaltext (data : Data) : string :=
  match signal data with
  | None => "-"
  | Some q => PyFormat.fmt_d q
  end.

(** The record of one reading,
    [displayid,rawvalue,value unit,timestamp,signal,name,type]. *)
Definition line (sensor : Sensor) (data : Data) : string :=
  PyFormat.fmt_d (displayid sensor) ++ "," ++
  PyFormat.fmt_d (rawvalue data) ++ "," ++
  PyFormat.fmt_f (rawToCooked sensor (rawvalue data)) ++ " " ++
  unit sensor ++ "," ++
  PyFormat.fmt_d (timestamp data) ++ "," ++
  signaltext data ++ "," ++
  name sensor ++ "," ++
  type sensor ++ nl.

(** [self.fd.write(text)]; an exception of [write] is not caught by the
    listener. *)
Definition fd_write (fs : FileSystem) (text : string) (st : state)
  : outcome * state :=
  let ok := write_ok fs (writes st) in
  ((if ok then Returns else Raises "OSError"),
   {| status := status st; fd := fd st; opens := opens st;
      writes := S (writes st);
      written := if ok then written st ++ text else written st;
      events := events st ++ [Write text ok] |}).

(** [onNewData]. *)
Definition onNewData (fs : FileSystem) (data : Data) (sensor : Sensor)
  (st : state) : outcome * state :=
  let st1 :=
    if negb (String.eqb (status st) "ready") then openLogfile fs st else st in
  if String.eqb (status st1) "ready"
  then fd_write fs (line sensor data) st1
  else (Returns, st1).

(** [__del__]: [self.fd.close()], where [self.fd] exists only after an
    [open] that returned. An error of [close] itself on an open file is
    not modelled. *)
Definition del (st : state) : outcome :=
  match fd st with
  | Some _ => Returns
  | None => Raises "AttributeError"
  end.

(** A run of the acquisition loop; the caller goes on with the next
    reading whatever the call did. *)
Fixpoint deliver (fs : FileSystem) (rs : list (Data * Sensor)) (st : state)
  : state :=
  match rs with
  | [] => st
  | (data, sensor) :: rest =>
      deliver fs rest (snd (onNewData fs data sensor st))
  end.

End FileOutListener.

(** ** Further parts of the live-query cache *)

(** [RecentValuesListener.__del__]: [self.server.server_close()], which
    raises [AttributeError] when [self.server] is [None]. *)
Definition cache_del (st : RecentValuesListener.state)
  : FileOutListener.outcome :=
  match RecentValuesListener.server st with
  | Some _ => FileOutListener.Returns
  | None => FileOutListener.Raises "AttributeError"
  end.

(** The cache between the two assignments of [onNewData]: [values] has
    the new reading, [sensors] is not yet touched. A request handler runs
    in its own thread and can read the cache at that point. *)
Definition values_assigned (data : Data) (sensor : Sensor)
  (st : RecentValuesListener.state) : RecentValuesListener.state :=
  {| RecentValuesListener.values :=
       PyDict.set (RecentValuesListener.values st) (id sensor) data;
     RecentValuesListener.sensors := RecentValuesListener.sensors st;
     RecentValuesListener.ready := RecentValuesListener.ready st;
     RecentValuesListener.server := RecentValuesListener.server st;
     RecentValuesListener.attempts := RecentValuesListener.attempts st;
     RecentValuesListener.events := RecentValuesListener.events st |}.

(** The keys of a dict filled by assigning [ks] in order: each key once,
    at the place of its first assignment. *)
Definition assigned_keys (start ks : list Z) : list Z :=
  fold_left
    (fun acc k => if existsb (Z.eqb k) acc then acc else (acc ++ [k])%list)
    ks start.

(** The last reading delivered for displayid [did] in a run. *)
Fixpoint latest_displayed (rs : list (Data * Sensor)) (did : Z)
  : option Data :=
  match rs with
  | [] => None
  | (d, s) :: rest =>
      match latest_displayed rest did with
      | Some r => Some r
      | None => if Z.eqb (displayid s) did then Some d else None
      end
  end.

(** The number of leading entries of [values] whose reading carries a
    sensor. *)
Fixpoint carried (items : list (Z * Data)) : nat :=
  match items with
  | [] => O
  | (_, v) :: rest =>
      match sensor_key v with
      | Some _ => S (carried rest)
      | None => O
      end
  end.

(** The record the file sink writes for a delivery. *)
Definition record_of (r : Data * Sensor) : string :=
  FileOutListener.line (snd r) (fst r).

(** A network on which attempt [k] alone opens the port. *)
Definition opens_at (k : nat) : RecentValuesListener.Network :=
  fun n => if Nat.eqb n k then RecentValuesListener.Started
           else RecentValuesListener.ServerRaises.

(** [adds Q m]: whatever [m] does, it only adds to the trace, and every
    event it adds satisfies [Q]. *)
Definition adds {A : Type} (Q : MQTTListener.Event -> Prop)
  (m : MQTTListener.M A) : Prop :=
  forall st,
    exists X,
      MQTTListener.events (snd (m st)) = (MQTTListener.events st ++ X)%list
      /\ Forall Q X.

(** What a delivery for [sensor] may add to the trace: log lines, and
    messages of quality of service 0 that are retained exactly when they
    are discovery messages; never a call of [connect] or [loop_start]. *)
Definition delivery_event (p : Params) (sensor : Sensor)
  (ev : MQTTListener.Event) : Prop :=
  match ev with
  | MQTTListener.Log _ _ => True
  | MQTTListener.Publish m _ =>
      MQTTListener.qos m = 0
      /\ MQTTListener.retain m = MQTTListener.is_announcement p sensor m
  | _ => False
  end.

(** [halts m]: every call of [publish] made by [m] returned, except
    possibly the last one, and all of them returned when [m] itself
    returns normally. *)
Definition halts {A : Type} (m : MQTTListener.M A) : Prop :=
  forall st,
    exists X,
      MQTTListener.events (snd (m st)) = (MQTTListener.events st ++ X)%list
      /\ forallb snd (removelast (MQTTListener.published X)) = true
      /\ (MQTTListener.is_ok (fst (m st)) = true ->
          forallb snd (MQTTListener.published X) = true).

(** Reading back a number written by [fmt_d]. *)
Definition parse_d (s : string) : option Z :=
  option_map Z.of_int (NilZero.int_of_string s).

(** ** The messages of a homie delivery *)

(** What a row of [publish] calls hands to the transport when the first of
    them is the [n]-th call of the process: each message in turn, up to and
    including the first whose call raises. *)
Fixpoint handed (b : MQTTListener.Broker) (n : nat)
  (ms : list MQTTListener.Msg) : list (MQTTListener.Msg * bool) :=
  match ms with
  | [] => []
  | m :: rest =>
      if MQTTListener.publish_ok b n
      then (m, true) :: handed b (S n) rest
      else [(m, false)]
  end.

Definition plain_msg (t pl : string) : MQTTListener.Msg :=
  {| MQTTListener.topic := t; MQTTListener.payload := MQTTListener.Text pl;
     MQTTListener.qos := 0; MQTTListener.retain := false |}.

Definition retained_msg (t pl : string) : MQTTListener.Msg :=
  {| MQTTListener.topic := t; MQTTListener.payload := MQTTListener.Text pl;
     MQTTListener.qos := 0; MQTTListener.retain := true |}.

(** The seven messages of sensor [s] under node [sid], for raw value
    [raw], in the order of the source. *)
Definition sensor_msgs (root : string) (sid : Z) (s : Sensor) (raw : Z)
  : list MQTTListener.Msg :=
  let node := MQTTListener.homie_node root sid in
  let prop := node ++ "/" ++ PyFormat.lower (type s) in
  [ plain_msg (node ++ "/$type") (manufacturerType s);
    plain_msg (node ++ "/$name") (name s);
    plain_msg (node ++ "/$properties") (PyFormat.lower (type s));
    plain_msg (prop ++ "/$name") (name s ++ " " ++ type s);
    plain_msg (prop ++ "/$datatype") "float";
    plain_msg (prop ++ "/$unit") (unit s);
    plain_msg prop (PyFormat.fmt_2f (rawToCooked s raw)) ].

(** The four device-level messages, for a publisher with params [p] whose
    [values] is [v]. *)
Definition device_msgs (p : Params) (v : PyDict.dict Data)
  : list MQTTListener.Msg :=
  let root := MQTTListener.homie_root p in
  [ retained_msg (root ++ "/$homie")
      (params_get p "homie_convention_version" "3.0");
    retained_msg (root ++ "/$name")
      (params_get p "mqtt_device_name"
         "Python MQTT Adapter for Arexx Multilogger");
    retained_msg (root ++ "/$nodes") (MQTTListener.nodestring v);
    retained_msg (root ++ "/$state") "ready" ].

(** The sensor messages of the entries of [values], in dict order, each
    built from the sensor and the raw value stored in the entry, up to the
    first entry that carries no sensor. *)
Fixpoint republished (root : string) (items : list (Z * Data))
  : list MQTTListener.Msg :=
  match items with
  | [] => []
  | (sid, value) :: rest =>
      match sensor_key value with
      | Some s =>
          (sensor_msgs root sid s (rawvalue value)
           ++ republished root rest)%list
      | None => []
      end
  end.

(** [hands b p v ms e m]: from a state with params [p] and values [v] the
    statement [m] leaves both alone, logs no error, hands exactly the
    messages [ms] to the transport up to the first call that raises, and
    returns normally when none raised and [e] holds. *)
Definition hands {A : Type} (b : MQTTListener.Broker) (p : Params)
  (v : PyDict.dict Data) (ms : list MQTTListener.Msg) (e : bool)
  (m : MQTTListener.M A) : Prop :=
  forall st,
    MQTTListener.params st = p -> MQTTListener.values st = v ->
    exists X,
      MQTTListener.events (snd (m st)) = (MQTTListener.events st ++ X)%list
      /\ MQTTListener.published X = handed b (MQTTListener.calls st) ms
      /\ MQTTListener.logged_error X = false
      /\ MQTTListener.is_ok (fst (m st))
         = (forallb snd (handed b (MQTTListener.calls st) ms) && e)%bool
      /\ MQTTListener.calls (snd (m st))
         = (MQTTListener.calls st
            + List.length (handed b (MQTTListener.calls st) ms))%nat
      /\ MQTTListener.params (snd (m st)) = p
      /\ MQTTListener.values (snd (m st)) = v.

(** A sensor whose displayid extends that of [garden] by a digit. *)
Definition cellar : Sensor :=
  {| id := 5; displayid := 31; name := "Cellar"; type := "Temperature";
     unit := "C"; manufacturerType := "TL-3TSN";
     rawToCooked := tenths |}.

(** * Properties *)

(** ** Strings and formatting *)

Lemma append_assoc (a b c : string) : (a ++ b) ++ c = a ++ (b ++ c).
Proof.
  induction a as [|ch a IH]; simpl; [reflexivity | now rewrite IH].
Qed.

Lemma append_empty_r (a : string) : a ++ "" = a.
Proof.
  induction a as [|ch a IH]; simpl; [reflexivity | now rewrite IH].
Qed.

Lemma round_of_int (m : N) (e : Z) (p : nat) (z : Z) :
  Z.of_N m * 2 ^ (Z.max e 0) = Z.abs z * 2 ^ (Z.max (- e) 0) ->
  PyFormat.round_half_even_scaled m e p = Z.abs z * 10 ^ Z.of_nat p.
Proof.
  intros H. unfold PyFormat.round_half_even_scaled.
  destruct (Z.leb_spec 0 e) as [He|He].
  - rewrite Z.max_l in H by lia. rewrite Z.max_r in H by lia.
    rewrite Z.pow_0_r, Z.mul_1_r in H. rewrite <- H. ring.
  - rewrite Z.max_r in H by lia. rewrite Z.max_l in H by lia.
    rewrite Z.pow_0_r, Z.mul_1_r in H. rewrite H.
    assert (Hden : 0 < 2 ^ (- e)) by (apply Z.pow_pos_nonneg; lia).
    replace (Z.abs z * 2 ^ (- e) * 10 ^ Z.of_nat p)
      with (Z.abs z * 10 ^ Z.of_nat p * 2 ^ (- e)) by ring.
    rewrite Z.div_mul by lia. rewrite Z.mod_mul by lia.
    cbv zeta. replace (2 * 0) with 0 by ring.
    destruct (Z.compare_spec 0 (2 ^ (- e))); lia.
Qed.

(** [%f] depends on the value of an integer-valued float only, not on how
    mantissa and exponent share it. *)
Lemma fmt_fixed_of_int (p : nat) (x : PyFormat.pyfloat) (z : Z) :
  represents_int x z ->
  PyFormat.fmt_fixed p x =
  PyFormat.fmt_fixed p (PyFormat.Finite (z <? 0) (Z.abs_N z) 0).
Proof.
  destruct x as [neg m e| |]; simpl; try contradiction.
  intros [-> H].
  rewrite (round_of_int m e p z H).
  rewrite (round_of_int (Z.abs_N z) 0 p z).
  - reflexivity.
  - rewrite N2Z.inj_abs_N. reflexivity.
Qed.

(** ** Dicts *)

Section DictFacts.
Context {V : Type}.
Implicit Types (d : PyDict.dict V) (k : Z) (v : V).

Lemma get_set_same d k v : PyDict.get (PyDict.set d k v) k = Some v.
Proof.
  induction d as [|[k' v'] d IH]; simpl.
  - now rewrite Z.eqb_refl.
  - destruct (Z.eqb_spec k' k) as [->|Hne]; simpl.
    + now rewrite Z.eqb_refl.
    + destruct (Z.eqb_spec k' k); [contradiction | exact IH].
Qed.

Lemma get_set_other d k k' v :
  k <> k' -> PyDict.get (PyDict.set d k v) k' = PyDict.get d k'.
Proof.
  intros Hne. induction d as [|[k0 v0] d IH]; simpl.
  - destruct (Z.eqb_spec k k'); [contradiction | reflexivity].
  - destruct (Z.eqb_spec k0 k) as [->|H0]; simpl.
    + destruct (Z.eqb_spec k k'); [contradiction | reflexivity].
    + now rewrite IH.
Qed.

Lemma set_set_same d k v :
  PyDict.set (PyDict.set d k v) k v = PyDict.set d k v.
Proof.
  induction d as [|[k' v'] d IH]; simpl.
  - now rewrite Z.eqb_refl.
  - destruct (Z.eqb_spec k' k) as [->|Hne]; simpl.
    + now rewrite Z.eqb_refl.
    + destruct (Z.eqb_spec k' k); [contradiction | now rewrite IH].
Qed.

Lemma keys_set_present d k v :
  PyDict.contains d k = true -> PyDict.keys (PyDict.set d k v) = PyDict.keys d.
Proof.
  unfold PyDict.contains, PyDict.keys.
  induction d as [|[k' v'] d IH]; simpl; [discriminate|].
  destruct (Z.eqb_spec k' k) as [->|Hne]; simpl; intros H.
  - reflexivity.
  - now rewrite IH.
Qed.

Lemma keys_set_absent d k v :
  PyDict.contains d k = false ->
  PyDict.keys (PyDict.set d k v) = (PyDict.keys d ++ [k])%list.
Proof.
  unfold PyDict.contains, PyDict.keys.
  induction d as [|[k' v'] d IH]; simpl; [reflexivity|].
  destruct (Z.eqb_spec k' k) as [->|Hne]; simpl; intros H.
  - discriminate.
  - now rewrite IH.
Qed.

Lemma contains_in_keys d k :
  PyDict.contains d k = true <-> In k (PyDict.keys d).
Proof.
  unfold PyDict.contains, PyDict.keys.
  induction d as [|[k' v'] d IH]; simpl.
  - split; [discriminate | contradiction].
  - destruct (Z.eqb_spec k' k) as [->|Hne].
    + split; auto.
    + rewrite IH. split; [auto | intros [?|?]; [contradiction | assumption]].
Qed.

Lemma NoDup_keys_set d k v :
  NoDup (PyDict.keys d) -> NoDup (PyDict.keys (PyDict.set d k v)).
Proof.
  intros Hnd. destruct (PyDict.contains d k) eqn:Hc.
  - now rewrite keys_set_present.
  - rewrite keys_set_absent by assumption.
    apply NoDup_app; repeat split; auto.
    + constructor; [intros [] | constructor].
    + intros x Hx [<-|[]]. apply contains_in_keys in Hx. congruence.
Qed.

End DictFacts.

(** The keys of a dict after an assignment depend on its keys only. *)
Lemma keys_set_eq {V W : Type} (d1 : PyDict.dict V) (d2 : PyDict.dict W)
  (k : Z) (v : V) (w : W) :
  PyDict.keys d1 = PyDict.keys d2 ->
  PyDict.keys (PyDict.set d1 k v) = PyDict.keys (PyDict.set d2 k w).
Proof.
  revert d2. unfold PyDict.keys.
  induction d1 as [|[k1 v1] d1 IH]; intros [|[k2 v2] d2]; simpl;
    try discriminate; [reflexivity|].
  intros H. injection H as -> H.
  destruct (Z.eqb_spec k2 k); simpl; [now rewrite H | now rewrite (IH d2 H)].
Qed.

Lemma get_of_in {V : Type} (d : PyDict.dict V) (k : Z) (v : V) :
  NoDup (PyDict.keys d) -> In (k, v) d -> PyDict.get d k = Some v.
Proof.
  unfold PyDict.keys.
  induction d as [|[k' v'] d IH]; simpl; [contradiction|].
  intros Hnd [Heq|Hin].
  - injection Heq as -> ->. now rewrite Z.eqb_refl.
  - inversion Hnd as [|? ? Hnotin Hnd']; subst.
    destruct (Z.eqb_spec k' k) as [->|Hne]; [|auto].
    exfalso. apply Hnotin. now apply (in_map fst _ (k, v)).
Qed.

Lemma in_keys_get {V : Type} (d : PyDict.dict V) (k : Z) :
  In k (PyDict.keys d) -> exists v, PyDict.get d k = Some v.
Proof.
  intros H. apply contains_in_keys in H. unfold PyDict.contains in H.
  destruct (PyDict.get d k) as [v|]; [now exists v | discriminate].
Qed.

(** ** The live-query cache *)

Section Cache.
Import RecentValuesListener.
Variable net : Network.

Lemma open_values st : values (openListeningPort net st) = values st.
Proof. unfold openListeningPort. now destruct (net (attempts st)). Qed.

Lemma open_sensors st : sensors (openListeningPort net st) = sensors st.
Proof. unfold openListeningPort. now destruct (net (attempts st)). Qed.

Lemma onNewData_values d s st :
  values (onNewData net d s st) = PyDict.set (values st) (id s) d.
Proof.
  unfold onNewData; simpl. destruct (ready st); simpl;
    [reflexivity | now rewrite open_values].
Qed.

Lemma onNewData_sensors d s st :
  sensors (onNewData net d s st) = PyDict.set (sensors st) (id s) s.
Proof.
  unfold onNewData; simpl. destruct (ready st); simpl;
    [reflexivity | now rewrite open_sensors].
Qed.

Lemma init_values : values (init net) = [].
Proof. unfold init; simpl. now rewrite open_values. Qed.

Lemma init_sensors : sensors (init net) = [].
Proof. unfold init; simpl. now rewrite open_sensors. Qed.

Lemma deliver_keys rs : forall st,
  PyDict.keys (values st) = PyDict.keys (sensors st) ->
  PyDict.keys (values (deliver net rs st)) =
  PyDict.keys (sensors (deliver net rs st)).
Proof.
  induction rs as [|[d s] rs IH]; intros st H; simpl; [exact H|].
  apply IH. rewrite onNewData_values, onNewData_sensors.
  now apply keys_set_eq.
Qed.

Lemma deliver_nodup rs : forall st,
  NoDup (PyDict.keys (values st)) ->
  NoDup (PyDict.keys (values (deliver net rs st))).
Proof.
  induction rs as [|[d s] rs IH]; intros st H; simpl; [exact H|].
  apply IH. rewrite onNewData_values. now apply NoDup_keys_set.
Qed.

Lemma deliver_get_values rs sid : forall st,
  PyDict.get (values (deliver net rs st)) sid =
  match latest rs sid with
  | Some r => Some (fst r)
  | None => PyDict.get (values st) sid
  end.
Proof.
  induction rs as [|[d s] rs IH]; intros st; simpl; [reflexivity|].
  rewrite IH. destruct (latest rs sid) as [r|]; [reflexivity|].
  rewrite onNewData_values.
  destruct (Z.eqb_spec (id s) sid) as [<-|Hne]; simpl.
  - apply get_set_same.
  - now apply get_set_other.
Qed.

Lemma deliver_get_sensors rs sid : forall st,
  PyDict.get (sensors (deliver net rs st)) sid =
  match latest rs sid with
  | Some r => Some (snd r)
  | None => PyDict.get (sensors st) sid
  end.
Proof.
  induction rs as [|[d s] rs IH]; intros st; simpl; [reflexivity|].
  rewrite IH. destruct (latest rs sid) as [r|]; [reflexivity|].
  rewrite onNewData_sensors.
  destruct (Z.eqb_spec (id s) sid) as [<-|Hne]; simpl.
  - apply get_set_same.
  - now apply get_set_other.
Qed.

Lemma render_total (ss : PyDict.dict Sensor) (items : list (Z * Data)) :
  forall acc,
  incl (PyDict.keys items) (PyDict.keys ss) ->
  render ss items acc =
  Some (acc ++ join_lines
          (map (fun kv => match PyDict.get ss (fst kv) with
                          | Some s => line s (snd kv)
                          | None => ""
                          end) items)).
Proof.
  induction items as [|[sid d] items IH]; intros acc Hincl; simpl.
  - now rewrite append_empty_r.
  - destruct (in_keys_get ss sid) as [s Hs].
    { apply Hincl. now left. }
    rewrite Hs. rewrite IH.
    + now rewrite append_assoc.
    + intros x Hx. apply Hincl. now right.
Qed.

Lemma setup_reachable rs :
  setup (deliver net rs (init net)) =
  Some (join_lines (snapshot_lines (deliver net rs (init net)))).
Proof.
  unfold setup, snapshot_lines. rewrite render_total; [reflexivity|].
  rewrite deliver_keys; [apply incl_refl|].
  now rewrite init_values, init_sensors.
Qed.

(** While every attempt fails, each delivery makes one more. *)
Lemma deliver_attempts rs : forall st,
  ready st = false ->
  (forall n, is_started (net n) = false) ->
  attempts (deliver net rs st) = (attempts st + List.length rs)%nat
  /\ ready (deliver net rs st) = false.
Proof.
  induction rs as [|[d s] rs IH]; intros st Hr Hfail; simpl.
  - split; [lia | exact Hr].
  - assert (Hstep : attempts (onNewData net d s st) = S (attempts st)
                    /\ ready (onNewData net d s st) = false).
    { unfold onNewData, openListeningPort; simpl. rewrite Hr; simpl.
      pose proof (Hfail (attempts st)) as Hn.
      destruct (net (attempts st)); simpl in *;
        (discriminate || (split; reflexivity)). }
    destruct Hstep as [Ha Hr'].
    destruct (IH _ Hr' Hfail) as [H1 H2]. split; [|exact H2].
    rewrite H1, Ha. lia.
Qed.

End Cache.

(** C4. A cache that holds the sensor with displayid 7, type Temperature,
    name Office, unit C and id 2, whose latest reading has raw value 230,
    timestamp 1700000000 and no signal quality, with [rawToCooked 230] equal
    to 23.0, answers a connecting client with exactly the line
    [7,23.000000 C,1700000000,-,Temperature,Office,2] and a newline. In
    general the response is the concatenation of one line per entry of
    [values], each of the form
    [displayid,value unit,timestamp,signal,type,name,id], where the signal
    field is [-] when the signal is [None] and its decimal value otherwise. *)
Theorem live_query_response_line
  (net : RecentValuesListener.Network) (s : Sensor) (d : Data) :
  displayid s = 7 -> type s = "Temperature" -> name s = "Office" ->
  unit s = "C" -> id s = 2 ->
  rawvalue d = 230 -> timestamp d = 1700000000 -> signal d = None ->
  represents_int (rawToCooked s 230) 23 ->
  RecentValuesListener.setup
    (RecentValuesListener.onNewData net d s (RecentValuesListener.init net))
  = Some ("7,23.000000 C,1700000000,-,Temperature,Office,2" ++ nl)
  /\ (forall rs,
        let st := RecentValuesListener.deliver net rs
                    (RecentValuesListener.init net) in
        RecentValuesListener.setup st = Some (join_lines (snapshot_lines st))
        /\ List.length (snapshot_lines st)
           = List.length (RecentValuesListener.values st))
  /\ (forall s' d',
        RecentValuesListener.line s' d' =
        PyFormat.fmt_d (displayid s') ++ "," ++
        PyFormat.fmt_f (rawToCooked s' (rawvalue d')) ++ " " ++
        unit s' ++ "," ++ PyFormat.fmt_d (timestamp d') ++ "," ++
        match signal d' with None => "-" | Some q => PyFormat.fmt_d q end
        ++ "," ++ type s' ++ "," ++ name s' ++ "," ++
        PyFormat.fmt_d (id s') ++ nl).
Proof.
  intros Hdisp Htype Hname Hunit Hid Hraw Hts Hsig Hval.
  split; [|split].
  - unfold RecentValuesListener.setup.
    rewrite onNewData_values, onNewData_sensors, init_values, init_sensors.
    simpl. rewrite Z.eqb_refl. unfold RecentValuesListener.line.
    unfold RecentValuesListener.signaltext, PyFormat.fmt_f.
    rewrite Hdisp, Htype, Hname, Hunit, Hid, Hraw, Hts, Hsig.
    rewrite (fmt_fixed_of_int 6 _ 23 Hval). reflexivity.
  - intros rs st. split.
    + apply setup_reachable.
    + unfold snapshot_lines. apply length_map.
  - intros s' d'. reflexivity.
Qed.

Lemma live_query_response_line_witness :
  RecentValuesListener.setup
    (RecentValuesListener.onNewData (fun _ => RecentValuesListener.Started)
       (reading 230 1700000000) office
       (RecentValuesListener.init (fun _ => RecentValuesListener.Started)))
  = Some ("7,23.000000 C,1700000000,-,Temperature,Office,2" ++ nl).
Proof.
  apply (live_query_response_line (fun _ => RecentValuesListener.Started)
           office (reading 230 1700000000));
    try reflexivity.
  simpl. split; reflexivity.
Defined.

(** C5. After any sequence of [onNewData] calls the cache holds at most one
    entry per sensor id, the entry of each id is the reading (and the sensor)
    delivered last for that id, and the snapshot is made of the lines of
    these latest readings only. *)
Theorem cache_last_write_wins
  (net : RecentValuesListener.Network) (rs : list (Data * Sensor)) :
  let st := RecentValuesListener.deliver net rs
              (RecentValuesListener.init net) in
  NoDup (PyDict.keys (RecentValuesListener.values st))
  /\ (forall sid, PyDict.get (RecentValuesListener.values st) sid
                  = option_map fst (latest rs sid))
  /\ (forall sid, PyDict.get (RecentValuesListener.sensors st) sid
                  = option_map snd (latest rs sid))
  /\ RecentValuesListener.setup st =
     Some (join_lines
             (map (fun sid => match latest rs sid with
                              | Some (d, s) => RecentValuesListener.line s d
                              | None => ""
                              end)
                  (PyDict.keys (RecentValuesListener.values st)))).
Proof.
  intros st.
  assert (Hnd : NoDup (PyDict.keys (RecentValuesListener.values st))).
  { apply deliver_nodup. rewrite init_values. constructor. }
  assert (Hv : forall sid, PyDict.get (RecentValuesListener.values st) sid
                           = option_map fst (latest rs sid)).
  { intros sid. unfold st. rewrite deliver_get_values, init_values.
    now destruct (latest rs sid). }
  assert (Hs : forall sid, PyDict.get (RecentValuesListener.sensors st) sid
                           = option_map snd (latest rs sid)).
  { intros sid. unfold st. rewrite deliver_get_sensors, init_sensors.
    now destruct (latest rs sid). }
  repeat split; auto.
  unfold st at 1. rewrite setup_reachable. fold st. f_equal. f_equal.
  unfold snapshot_lines, PyDict.keys. rewrite map_map.
  apply map_ext_in. intros [sid d] Hin. simpl.
  pose proof (get_of_in _ sid d Hnd Hin) as Hget.
  rewrite Hv in Hget. rewrite Hs.
  destruct (latest rs sid) as [[d' s']|]; simpl in *; [|discriminate].
  now injection Hget as ->.
Qed.

(** C8. Opening the port is attempted once at construction. Every
    [onNewData] stores the reading and the sensor whatever the state of the
    port; while [ready] is false it makes exactly one further attempt, which
    logs an error when it fails and sets [ready] when it succeeds; once
    [ready] is true no attempt is made any more. *)
Theorem bind_retried_while_not_ready
  (net : RecentValuesListener.Network) (d : Data) (s : Sensor)
  (st : RecentValuesListener.state) :
  let st' := RecentValuesListener.onNewData net d s st in
  let n := RecentValuesListener.attempts st in
  PyDict.get (RecentValuesListener.values st') (id s) = Some d
  /\ PyDict.get (RecentValuesListener.sensors st') (id s) = Some s
  /\ RecentValuesListener.attempts st'
     = (if RecentValuesListener.ready st then n else S n)
  /\ RecentValuesListener.ready st'
     = (RecentValuesListener.ready st || is_started (net n))%bool
  /\ RecentValuesListener.events st'
     = (RecentValuesListener.events st ++
        (if RecentValuesListener.ready st then []
         else attempt_trace n (net n)))%list
  /\ RecentValuesListener.attempts (RecentValuesListener.init net) = 1%nat
  /\ RecentValuesListener.ready (RecentValuesListener.init net)
     = is_started (net O)
  /\ RecentValuesListener.events (RecentValuesListener.init net)
     = attempt_trace O (net O).
Proof.
  intros st' n. unfold st', n.
  split; [rewrite onNewData_values; apply get_set_same|].
  split; [rewrite onNewData_sensors; apply get_set_same|].
  unfold RecentValuesListener.onNewData, RecentValuesListener.init,
    RecentValuesListener.openListeningPort. simpl.
  destruct (RecentValuesListener.ready st); simpl.
  - rewrite app_nil_r. destruct (net O); simpl; repeat split; reflexivity.
  - destruct (net (RecentValuesListener.attempts st)), (net O); simpl;
      rewrite <- ?app_assoc; simpl; repeat split; reflexivity.
Qed.

(** C9. A second [onNewData] with the same reading and the same sensor
    leaves both dicts, and so the snapshot, as the first call left them. *)
Theorem update_idempotent
  (net net' : RecentValuesListener.Network) (d : Data) (s : Sensor)
  (st : RecentValuesListener.state) :
  let st1 := RecentValuesListener.onNewData net d s st in
  let st2 := RecentValuesListener.onNewData net' d s st1 in
  RecentValuesListener.values st2 = RecentValuesListener.values st1
  /\ RecentValuesListener.sensors st2 = RecentValuesListener.sensors st1
  /\ RecentValuesListener.setup st2 = RecentValuesListener.setup st1.
Proof.
  intros st1 st2.
  assert (Hv : RecentValuesListener.values st2
               = RecentValuesListener.values st1).
  { unfold st2, st1. rewrite !onNewData_values. apply set_set_same. }
  assert (Hs : RecentValuesListener.sensors st2
               = RecentValuesListener.sensors st1).
  { unfold st2, st1. rewrite !onNewData_sensors. apply set_set_same. }
  repeat split; auto.
  unfold RecentValuesListener.setup. now rewrite Hv, Hs.
Qed.

(** C10. After any sequence of [onNewData] calls the two dicts have the same
    keys, in the same order, so every key of [values] is a key of [sensors]
    and the handler's [sensors[sid]] never raises: [setup] returns a
    response. *)
Theorem values_keys_in_sensors
  (net : RecentValuesListener.Network) (rs : list (Data * Sensor)) :
  let st := RecentValuesListener.deliver net rs
              (RecentValuesListener.init net) in
  PyDict.keys (RecentValuesListener.values st)
  = PyDict.keys (RecentValuesListener.sensors st)
  /\ incl (PyDict.keys (RecentValuesListener.values st))
          (PyDict.keys (RecentValuesListener.sensors st))
  /\ exists response, RecentValuesListener.setup st = Some response.
Proof.
  intros st.
  assert (Hk : PyDict.keys (RecentValuesListener.values st)
               = PyDict.keys (RecentValuesListener.sensors st)).
  { apply deliver_keys. now rewrite init_values, init_sensors. }
  split; [exact Hk|]. split.
  - rewrite Hk. apply incl_refl.
  - eexists. apply setup_reachable.
Qed.

(** ** The MQTT publisher *)

Lemma published_app (x y : list MQTTListener.Event) :
  MQTTListener.published (x ++ y)
  = (MQTTListener.published x ++ MQTTListener.published y)%list.
Proof.
  induction x as [|[ | | | ] x IH]; simpl; auto. now rewrite IH.
Qed.

Section Publisher.
Import MQTTListener.
Variable b : Broker.

Lemma failed_app (x y : list Event) :
  failed (x ++ y) = (failed x || failed y)%bool.
Proof.
  unfold failed. rewrite published_app. apply existsb_app.
Qed.

Lemma logged_error_app (x y : list Event) :
  logged_error (x ++ y) = (logged_error x || logged_error y)%bool.
Proof. apply existsb_app. Qed.

Lemma emits_ret {A} P (a : A) : emits P (ret a).
Proof.
  intros st; simpl. repeat split. exists []. rewrite app_nil_r.
  repeat split; auto.
Qed.

Lemma emits_raise {A} P e : emits P (@raise A e).
Proof.
  intros st; simpl. repeat split. exists []. rewrite app_nil_r.
  repeat split; auto.
Qed.

Lemma emits_log P l t : emits P (log l t).
Proof.
  intros st; simpl. repeat split. exists [Log l t].
  split; [reflexivity|]. split; [repeat constructor|].
  intros _ H. discriminate H.
Qed.

Lemma emits_publish (P : Msg -> Prop) t pl q r :
  P {| topic := t; payload := pl; qos := q; retain := r |} ->
  emits P (publish b t pl q r).
Proof.
  intros HP st; simpl. repeat split. eexists. split; [reflexivity|]. split.
  - repeat constructor. exact HP.
  - destruct (publish_ok b (calls st)); simpl; auto.
Qed.

Lemma emits_bind {A B} P (m : M A) (k : A -> M B) :
  emits P m -> (forall a, emits P (k a)) -> emits P (bind m k).
Proof.
  intros Hm Hk st. unfold bind.
  destruct (Hm st) as (Hp & Hv & Hr & X & HX & HF & HL).
  destruct (m st) as [[a|e] st1]; simpl in *.
  - destruct (Hk a st1) as (Hp' & Hv' & Hr' & Y & HY & HG & HM).
    repeat split; try congruence.
    exists (X ++ Y)%list. split; [|split].
    + rewrite HY, HX. now rewrite app_assoc.
    + apply Forall_app. now split.
    + intros Hok. rewrite failed_app, logged_error_app.
      intros Hf. apply orb_true_iff in Hf. apply orb_true_iff.
      destruct Hf; [left|right]; auto.
  - repeat split; auto. exists X. repeat split; auto.
Qed.

(** [try: body except Exception as e: logging.error(...)]. *)
Lemma emits_try P (body : M Datatypes.unit) t :
  emits P body ->
  emits P (try_except body (fun _ => log ERROR t))
  /\ forall st, is_ok (fst (try_except body (fun _ => log ERROR t) st)) = true.
Proof.
  intros Hm. split; intros st; unfold try_except.
  - destruct (Hm st) as (Hp & Hv & Hr & X & HX & HF & HL).
    destruct (body st) as [[a|e] st1]; simpl in *.
    + repeat split; auto. now exists X.
    + repeat split; auto. exists (X ++ [Log ERROR t])%list. split; [|split].
      * rewrite HX. now rewrite app_assoc.
      * apply Forall_app. split; auto. repeat constructor.
      * intros _ _. rewrite logged_error_app. simpl. apply orb_true_r.
  - destruct (body st) as [[a|e] st1]; reflexivity.
Qed.

Lemma emits_state {A} P (f : state -> M A) :
  (forall st0, emits P (f st0)) -> emits P (fun st => f st st).
Proof. intros H st. apply (H st st). Qed.

End Publisher.

Lemma eqb_app_prefix (a x y : string) :
  String.eqb (a ++ x) (a ++ y) = String.eqb x y.
Proof.
  induction a as [|c a IH]; simpl; [reflexivity|].
  now rewrite Ascii.eqb_refl.
Qed.

Lemma skipn_emitted {A : Type} (l x : list A) :
  skipn (List.length l) (l ++ x) = x.
Proof. induction l; simpl; auto. Qed.

Lemma no_announcement_in (p : Params) (s : Sensor)
  (X : list MQTTListener.Event) :
  Forall (event_sat (fun m => MQTTListener.is_announcement p s m = false)) X ->
  MQTTListener.announcements p s X = [].
Proof.
  unfold MQTTListener.announcements.
  induction 1 as [|ev X Hev HX IH]; simpl; [reflexivity|].
  destruct ev; simpl in *; auto. now rewrite Hev.
Qed.

Section PublisherRuns.
Import MQTTListener.
Variable b : Broker.

Lemma ha_state_not_config p s :
  String.eqb (ha_topic p s "state") (ha_topic p s "config") = false.
Proof.
  unfold ha_topic. rewrite eqb_app_prefix. simpl.
  rewrite eqb_app_prefix. simpl. rewrite eqb_app_prefix. reflexivity.
Qed.

Lemma node_topic_not_device p sid suffix :
  existsb (String.eqb (homie_node (homie_root p) sid ++ suffix))
    (device_topics p) = false.
Proof.
  unfold device_topics, homie_node. rewrite !append_assoc.
  cbn [existsb]. rewrite !eqb_app_prefix. reflexivity.
Qed.

(** The home-assistant publisher keeps [values] as it found it. *)
Lemma sendHA_frame (P : Msg -> Prop) d s st :
  (is_new st s = true -> forall m, P m) ->
  (forall pl q r,
     P {| topic := ha_topic (params st) s "state"; payload := pl;
          qos := q; retain := r |}) ->
  let st' := sendHomeAssistantMessage b d s st in
  params st' = params st /\ values st' = values st /\ ready st' = ready st /\
  exists X, events st' = (events st ++ X)%list
            /\ Forall (event_sat P) X
            /\ (failed X = true -> logged_error X = true)
            /\ (ready st = false -> X = []).
Proof.
  intros Hnew Hstate. unfold sendHomeAssistantMessage.
  destruct (ready st) eqn:Hr.
  - match goal with |- context [try_except ?body ?h st] =>
      assert (Hb : emits P body) end.
    { apply emits_bind.
      - destruct (is_new st s); [|apply emits_ret].
        apply emits_bind; [apply emits_log|].
        intros _. apply emits_publish. now apply Hnew.
      - intros _. apply emits_publish. apply Hstate. }
    destruct (emits_try P _ "Error publishing mqtt messages: %s" Hb)
      as [He Hok].
    destruct (He st) as (Hp & Hv & Hrd & X & HX & HF & HL).
    cbv zeta. repeat split; try assumption; try congruence.
    exists X. repeat split; auto. discriminate.
  - cbv zeta. repeat split; auto. exists []. rewrite app_nil_r.
    repeat split; auto.
Qed.

Lemma homie_sensor_emits (P : Msg -> Prop) root sid s raw :
  (forall suffix pl q r,
     P {| topic := homie_node root sid ++ suffix; payload := pl;
          qos := q; retain := r |}) ->
  emits P (homie_sensor_messages b root sid s raw).
Proof.
  intros HP. unfold homie_sensor_messages. cbv zeta.
  repeat (apply emits_bind; [|intros _]);
    apply emits_publish; rewrite ?append_assoc; apply HP.
Qed.

Lemma homie_all_emits root items :
  emits (fun _ => True) (homie_all_sensors b root items).
Proof.
  induction items as [|[sid value] items IH]; simpl; [apply emits_ret|].
  apply emits_bind; [apply emits_log|]. intros _.
  apply emits_bind; [|intros _; exact IH].
  destruct (sensor_key value); [|apply emits_raise].
  apply homie_sensor_emits. auto.
Qed.

Lemma homie_device_emits root :
  emits (fun _ => True) (homie_device_messages b root).
Proof.
  unfold homie_device_messages.
  apply (emits_state _ (fun st0 =>
    publish b (root ++ "/$homie")
      (Text (params_get (params st0) "homie_convention_version" "3.0"))
      0 true ;;
    publish b (root ++ "/$name")
      (Text (params_get (params st0) "mqtt_device_name"
               "Python MQTT Adapter for Arexx Multilogger"))
      0 true ;;
    publish b (root ++ "/$nodes") (Text (nodestring (values st0))) 0 true ;;
    publish b (root ++ "/$state") (Text "ready") 0 true)).
  intros st0.
  repeat (apply emits_bind; [|intros _]); now apply emits_publish.
Qed.

(** The homie publisher records the reading before it publishes, whatever
    the transport does afterwards. *)
Lemma sendHomie_frame (P : Msg -> Prop) d s st :
  (is_new st s = true -> forall m, P m) ->
  (forall suffix pl q r,
     P {| topic := homie_node (homie_root (params st)) (displayid s) ++ suffix;
          payload := pl; qos := q; retain := r |}) ->
  let st' := sendHomieMessages b d s st in
  params st' = params st /\
  values st' = PyDict.set (values st) (displayid s) d /\
  ready st' = ready st /\
  exists X, events st' = (events st ++ X)%list
            /\ Forall (event_sat P) X
            /\ (failed X = true -> logged_error X = true)
            /\ (ready st = false -> X = []).
Proof.
  intros Hnew Hnode. unfold sendHomieMessages. cbn [ready params].
  destruct (ready st) eqn:Hr.
  - match goal with |- context [try_except ?body ?h ?st1] =>
      assert (Hb : emits P body);
      [|destruct (emits_try P _ "Error publishing mqtt messages: %s" Hb)
          as [He Hok];
        destruct (He st1) as (Hp & Hv & Hrd & X & HX & HF & HL)] end.
    { apply emits_bind; [apply emits_log|]. intros _.
      destruct (is_new st s).
      - assert (HT : forall A (m : M A), emits (fun _ => True) m -> emits P m).
        { intros A m Hm st0.
          destruct (Hm st0) as (H1 & H2 & H3 & X & HX & HF & HL).
          repeat split; auto. exists X. repeat split; auto.
          apply Forall_forall. intros [ | | |m0 ok] _; simpl; auto. }
        apply emits_bind; [apply emits_log|]. intros _.
        apply emits_bind; [apply HT, homie_device_emits|]. intros _.
        apply (emits_state P (fun st0 =>
          homie_all_sensors b (homie_root (params st)) (values st0))).
        intros st0. apply HT, homie_all_emits.
      - apply emits_bind; [apply emits_log|]. intros _.
        apply homie_sensor_emits. apply Hnode. }
    cbv zeta. cbn [params values ready events] in *.
    repeat split; try assumption.
    exists X. repeat split; auto. discriminate.
  - cbv zeta. cbn. repeat split; auto. exists []. rewrite app_nil_r.
    repeat split; auto.
Qed.

(** [onNewData] under either convention. *)
Lemma onNewData_frame (P : Msg -> Prop) d s st :
  let homie :=
    String.eqb (params_get (params st) "payload_format" "home-assistant")
      "homie" in
  (is_new st s = true -> forall m, P m) ->
  (homie = true -> forall suffix pl q r,
     P {| topic := homie_node (homie_root (params st)) (displayid s) ++ suffix;
          payload := pl; qos := q; retain := r |}) ->
  (homie = false -> forall pl q r,
     P {| topic := ha_topic (params st) s "state"; payload := pl;
          qos := q; retain := r |}) ->
  let st' := onNewData b d s st in
  params st' = params st /\
  values st' =
    (if homie then PyDict.set (values st) (displayid s) d else values st) /\
  ready st' = ready st /\
  exists X, events st' = (events st ++ X)%list
            /\ Forall (event_sat P) X
            /\ (failed X = true -> logged_error X = true)
            /\ (ready st = false -> X = []).
Proof.
  cbv zeta. intros Hnew Hnode Hstate. unfold onNewData.
  destruct (String.eqb_spec
              (params_get (params st) "payload_format" "home-assistant")
              "homie") as [->|Hne].
  - cbn [String.eqb Ascii.eqb Bool.eqb]. apply sendHomie_frame; auto.
  - destruct (String.eqb _ "home-assistant").
    + apply sendHA_frame; auto.
    + repeat split; auto. exists []. rewrite app_nil_r.
      repeat split; auto.
Qed.

Lemma onNewData_any d s st :
  let st' := onNewData b d s st in
  params st' = params st /\
  values st' =
    (if String.eqb (params_get (params st) "payload_format" "home-assistant")
          "homie"
     then PyDict.set (values st) (displayid s) d else values st) /\
  ready st' = ready st /\
  exists X, events st' = (events st ++ X)%list
            /\ (failed X = true -> logged_error X = true)
            /\ (ready st = false -> X = []).
Proof.
  destruct (onNewData_frame (fun _ => True) d s st)
    as (Hp & Hv & Hr & X & HX & _ & HL & HN); auto.
  cbv zeta. repeat split; auto. now exists X.
Qed.

(** A sensor that is recorded in [values] gets no further discovery
    message, whatever the transport does. *)
Lemma known_sensor_not_announced d s st :
  PyDict.contains (values st) (displayid s) = true ->
  announcements (params st) s (emitted st (onNewData b d s st)) = [].
Proof.
  intros Hknown.
  destruct (onNewData_frame
              (fun m => is_announcement (params st) s m = false) d s st)
    as (_ & _ & _ & X & HX & HF & _).
  - unfold is_new. rewrite Hknown. discriminate.
  - intros Hh suffix pl q r. unfold is_announcement. rewrite Hh.
    apply node_topic_not_device.
  - intros Hh pl q r. unfold is_announcement. rewrite Hh.
    apply ha_state_not_config.
  - unfold emitted. rewrite HX, skipn_emitted. now apply no_announcement_in.
Qed.

(** A listener that is not ready stays so and adds nothing to the trace. *)
Lemma deliver_not_ready rs : forall st,
  ready st = false ->
  ready (deliver b rs st) = false /\ events (deliver b rs st) = events st.
Proof.
  induction rs as [|[d s] rs IH]; intros st Hr; simpl; [auto|].
  destruct (onNewData_any d s st) as (_ & _ & Hr' & X & HX & _ & HN).
  destruct (IH (onNewData b d s st)) as [H1 H2]; [congruence|].
  split; [exact H1|]. rewrite H2, HX, (HN Hr). apply app_nil_r.
Qed.

Lemma init_trace p :
  (connect_ok b && loop_start_ok b)%bool = false ->
  ready (init b p) = false
  /\ published (events (init b p)) = []
  /\ connects (events (init b p)) = 1%nat.
Proof.
  unfold init, connect, try_except, bind, mqtt_connect, loop_start, log,
    set_ready, emit.
  destruct (connect_ok b), (loop_start_ok b); simpl; intros H;
    try discriminate; repeat split; reflexivity.
Qed.

End PublisherRuns.

(** Under the home-assistant convention [values] stays empty for the whole
    run: [sendHomeAssistantMessage] reads it and never writes it. *)
Lemma ha_never_records (b : MQTTListener.Broker) (p : Params)
  (rs : list (Data * Sensor)) :
  String.eqb (params_get p "payload_format" "home-assistant") "homie" = false ->
  MQTTListener.values (MQTTListener.deliver b rs (MQTTListener.init b p)) = [].
Proof.
  intros Hha.
  assert (Hinit : MQTTListener.params (MQTTListener.init b p) = p
                  /\ MQTTListener.values (MQTTListener.init b p) = []).
  { unfold MQTTListener.init, MQTTListener.connect, MQTTListener.try_except,
      MQTTListener.bind, MQTTListener.mqtt_connect, MQTTListener.loop_start,
      MQTTListener.log, MQTTListener.set_ready, MQTTListener.emit.
    destruct (MQTTListener.connect_ok b), (MQTTListener.loop_start_ok b);
      simpl; auto. }
  destruct Hinit as [Hp Hv]. revert Hp Hv.
  generalize (MQTTListener.init b p).
  induction rs as [|[d s] rs IH]; intros st Hp Hv; simpl; [exact Hv|].
  destruct (onNewData_any b d s st) as (Hp' & Hv' & _).
  apply IH; [congruence|].
  rewrite Hv', Hp, Hha. exact Hv.
Qed.

(** C6. When the connection attempt of the constructor fails ([connect] or
    [loop_start] raises), [ready] is false after construction and after
    every later delivery, [connect] is called once in the whole run, no
    message is ever handed to the transport, and the deliveries add nothing
    at all to the trace, under either convention. *)
Theorem failed_connect_silences_publisher
  (b : MQTTListener.Broker) (p : Params) (rs : list (Data * Sensor)) :
  (MQTTListener.connect_ok b && MQTTListener.loop_start_ok b)%bool = false ->
  let st := MQTTListener.deliver b rs (MQTTListener.init b p) in
  MQTTListener.ready st = false
  /\ MQTTListener.connects (MQTTListener.events st) = 1%nat
  /\ MQTTListener.published (MQTTListener.events st) = []
  /\ MQTTListener.events st = MQTTListener.events (MQTTListener.init b p).
Proof.
  intros Hfail st.
  destruct (init_trace b p Hfail) as (Hr & Hpub & Hconn).
  destruct (deliver_not_ready b rs _ Hr) as [Hr' Hev].
  unfold st. rewrite Hev. auto.
Qed.

Lemma failed_connect_silences_publisher_witness :
  MQTTListener.published
    (MQTTListener.events
       (MQTTListener.deliver unreachable_broker
          [(reading_of garden 550 100, garden);
           (reading_of office 230 200, office)]
          (MQTTListener.init unreachable_broker
             [("payload_format", "homie")]))) = [].
Proof.
  apply (failed_connect_silences_publisher unreachable_broker
           [("payload_format", "homie")]
           [(reading_of garden 550 100, garden);
            (reading_of office 230 200, office)]).
  reflexivity.
Defined.

(** C7. Under the home-assistant convention a [publish] that raises is
    caught and logged, but there is no announced flag to keep:
    [sendHomeAssistantMessage] never stores the sensor in [values]. With a
    transport whose first call raises, the first reading of Garden hands
    over the config message alone (refused) and leaves the sensor
    unrecorded, and the next reading of Garden announces it again: config,
    then state. *)
Theorem ha_failed_publish_reannounces :
  let st := MQTTListener.init flaky_broker [] in
  let st1 := MQTTListener.onNewData flaky_broker (reading 550 100)
               garden st in
  let st2 := MQTTListener.onNewData flaky_broker (reading 560 200)
               garden st1 in
  map (fun mo => (MQTTListener.topic (fst mo), snd mo))
    (MQTTListener.published (MQTTListener.emitted st st1))
  = [("homeassistant/sensor/pylarexx_3/config", false)]
  /\ MQTTListener.logged_error (MQTTListener.emitted st st1) = true
  /\ PyDict.contains (MQTTListener.values st1) (displayid garden) = false
  /\ map (fun mo => (MQTTListener.topic (fst mo), snd mo))
       (MQTTListener.published (MQTTListener.emitted st1 st2))
     = [("homeassistant/sensor/pylarexx_3/config", true);
        ("homeassistant/sensor/pylarexx_3/state", true)]
  /\ List.length
       (MQTTListener.announcements (MQTTListener.params st) garden
          (MQTTListener.emitted st1 st2)) = 1%nat.
Proof. vm_compute. repeat split. Qed.

(** C1. Under the home-assistant convention nothing is ever stored in
    [values], so every reading is taken for the first of its sensor: two
    readings of the same sensor publish its config message twice. *)
Theorem ha_config_published_on_every_reading :
  let st := MQTTListener.deliver MQTTListener.reliable
              [(reading 550 100, garden); (reading 560 200, garden)]
              (MQTTListener.init MQTTListener.reliable []) in
  MQTTListener.topics (MQTTListener.events st)
  = [ "homeassistant/sensor/pylarexx_3/config";
      "homeassistant/sensor/pylarexx_3/state";
      "homeassistant/sensor/pylarexx_3/config";
      "homeassistant/sensor/pylarexx_3/state" ]
  /\ MQTTListener.count_topic "homeassistant/sensor/pylarexx_3/config"
       (MQTTListener.events st) = 2%nat
  /\ MQTTListener.values st = [].
Proof. vm_compute. repeat split. Qed.

(** C2. For a sensor named Garden of type Relative Humidity, unit %RH and
    displayid 3 the config payload has device_class humidity, unit % and a
    value template that reads the key humidity, but the state payload is
    keyed by the lower-cased type, relative humidity, and has no key
    humidity. *)
Theorem garden_state_key_is_lowered_type
  (i : Z) (mt : string) (f : Z -> PyFormat.pyfloat) (d : Data) (p : Params) :
  let s := {| id := i; displayid := 3; name := "Garden";
              type := "Relative Humidity"; unit := "%RH";
              manufacturerType := mt; rawToCooked := f |} in
  let cfg := MQTTListener.ha_config_payload
               (MQTTListener.ha_topic p s "state") s in
  let state := MQTTListener.ha_state_payload d s in
  MQTTListener.json_field "device_class" cfg = Some "humidity"
  /\ MQTTListener.json_field "unit_of_measurement" cfg = Some "%"
  /\ MQTTListener.json_field "value_template" cfg
     = Some "{{value_json.humidity}}"
  /\ map fst state = ["relative humidity"]
  /\ MQTTListener.json_field "humidity" state = None
  /\ map (fun mo => MQTTListener.payload (fst mo))
       (MQTTListener.published
          (MQTTListener.events
             (MQTTListener.onNewData MQTTListener.reliable
                (reading 550 100) garden
                (MQTTListener.init MQTTListener.reliable []))))
     = [ MQTTListener.Json
           [ ("name", "Garden Relative Humidity");
             ("device_class", "humidity");
             ("state_topic", "homeassistant/sensor/pylarexx_3/state");
             ("unit_of_measurement", "%");
             ("value_template", "{{value_json.humidity}}") ];
         MQTTListener.Json [ ("relative humidity", "55.00") ] ].
Proof.
  intros s cfg state. repeat split.
Qed.

(** C3, the claim as stated fails: with two sensors seen one after the
    other the device-level [$nodes] message is published twice. *)
Lemma homie_nodes_published_again :
  ~ published_at_most_once "homie/pylarexx/$nodes"
      (MQTTListener.events
         (MQTTListener.deliver MQTTListener.reliable
            [(reading_of garden 550 100, garden);
             (reading_of office 230 200, office)]
            (MQTTListener.init MQTTListener.reliable
               [("payload_format", "homie")]))).
Proof.
  unfold published_at_most_once.
  match goal with |- ~ (?n <= 1)%nat =>
    assert (H : n = 2%nat) by (vm_compute; reflexivity); rewrite H end.
  lia.
Qed.

(** *** What a homie delivery hands to the transport *)

Section Handing.
Import MQTTListener.
Variable b : Broker.

Lemma handed_length_ok ms : forall n,
  forallb snd (handed b n ms) = true ->
  List.length (handed b n ms) = List.length ms.
Proof.
  induction ms as [|m ms IH]; intros n; simpl; [reflexivity|].
  destruct (publish_ok b n); simpl; [|discriminate].
  intros H. now rewrite IH.
Qed.

Lemma handed_length_le ms : forall n,
  (List.length (handed b n ms) <= List.length ms)%nat.
Proof.
  induction ms as [|m ms IH]; intros n; simpl; [lia|].
  destruct (publish_ok b n); simpl; [|lia].
  specialize (IH (S n)). lia.
Qed.

Lemma handed_app_ok ms1 ms2 : forall n,
  forallb snd (handed b n ms1) = true ->
  handed b n (ms1 ++ ms2)
  = (handed b n ms1 ++ handed b (n + List.length ms1) ms2)%list.
Proof.
  induction ms1 as [|m ms1 IH]; intros n; simpl.
  - intros _. now rewrite Nat.add_0_r.
  - destruct (publish_ok b n); simpl; [|discriminate].
    intros H. rewrite IH by assumption. now rewrite Nat.add_succ_r.
Qed.

Lemma handed_app_fail ms1 ms2 : forall n,
  forallb snd (handed b n ms1) = false ->
  handed b n (ms1 ++ ms2) = handed b n ms1.
Proof.
  induction ms1 as [|m ms1 IH]; intros n; simpl; [discriminate|].
  destruct (publish_ok b n); simpl; [|reflexivity].
  intros H. now rewrite IH.
Qed.

Lemma firstn_handed ms1 ms2 n :
  firstn (List.length ms1) (handed b n (ms1 ++ ms2)) = handed b n ms1.
Proof.
  destruct (forallb snd (handed b n ms1)) eqn:Hok.
  - rewrite handed_app_ok by assumption.
    rewrite <- (handed_length_ok ms1 n Hok).
    rewrite firstn_app, Nat.sub_diag, firstn_all. simpl.
    apply app_nil_r.
  - rewrite handed_app_fail by assumption.
    apply firstn_all2, handed_length_le.
Qed.

Lemma hands_ret {A} p v (a : A) : hands b p v [] true (ret a).
Proof.
  intros st Hp Hv. exists []. simpl. rewrite app_nil_r, Nat.add_0_r.
  repeat split; auto.
Qed.

Lemma hands_log p v l t :
  l <> ERROR -> hands b p v [] true (log l t).
Proof.
  intros Hl st Hp Hv. exists [Log l t]. simpl. rewrite Nat.add_0_r.
  repeat split; auto. destruct l; try reflexivity. now destruct Hl.
Qed.

Lemma hands_publish p v t pl q r :
  hands b p v [{| topic := t; payload := pl; qos := q; retain := r |}] true
    (publish b t pl q r).
Proof.
  intros st Hp Hv. eexists. simpl. split; [reflexivity|].
  destruct (publish_ok b (calls st)); simpl;
    repeat split; auto; lia.
Qed.

Lemma hands_raise_bind {A B} p v e (k : A -> M B) :
  hands b p v [] false (bind (raise e) k).
Proof.
  intros st Hp Hv. exists []. unfold bind, raise. simpl.
  rewrite app_nil_r, Nat.add_0_r. repeat split; auto.
Qed.

Lemma hands_bind {A B} p v ms1 ms2 e (m : M A) (k : A -> M B) :
  hands b p v ms1 true m -> (forall a, hands b p v ms2 e (k a)) ->
  hands b p v (ms1 ++ ms2) e (bind m k).
Proof.
  intros Hm Hk st Hp Hv. unfold bind.
  destruct (Hm st Hp Hv) as (X & HX & HP & HL & HO & HC & Hp1 & Hv1).
  rewrite andb_true_r in HO.
  destruct (m st) as [[a|ex] st1]; simpl in *.
  - symmetry in HO.
    rewrite (handed_length_ok _ _ HO) in HC.
    destruct (Hk a st1 Hp1 Hv1) as (Y & HY & HP' & HL' & HO' & HC' & Hp2 & Hv2).
    rewrite HC in HP', HO', HC'.
    exists (X ++ Y)%list.
    rewrite (handed_app_ok ms1 ms2 _ HO).
    rewrite published_app, logged_error_app, HP, HP', HL, HL'.
    rewrite forallb_app, HO, length_app, (handed_length_ok _ _ HO).
    repeat split; auto.
    + rewrite HY, HX. now rewrite app_assoc.
    + rewrite HC'. lia.
  - symmetry in HO.
    exists X. rewrite (handed_app_fail ms1 ms2 _ HO), HO.
    repeat split; auto.
Qed.

Lemma hands_eq {A} p v ms ms' e e' (m : M A) :
  hands b p v ms e m -> ms = ms' -> e = e' -> hands b p v ms' e' m.
Proof. now intros H <- <-. Qed.

(** A statement that reads [params] and [values] of the state it runs
    in. *)
Lemma hands_reads {A} p v ms e (f : Params -> PyDict.dict Data -> M A) :
  hands b p v ms e (f p v) ->
  hands b p v ms e (fun st => f (params st) (values st) st).
Proof. intros H st Hp Hv. rewrite Hp, Hv. now apply H. Qed.

Lemma hands_sensor p v root sid s raw :
  hands b p v (sensor_msgs root sid s raw) true
    (homie_sensor_messages b root sid s raw).
Proof.
  unfold homie_sensor_messages, sensor_msgs. cbv zeta.
  eapply hands_eq;
    [ repeat (eapply hands_bind; [|intros _]); apply hands_publish
    | reflexivity | reflexivity ].
Qed.

Lemma hands_device p v :
  hands b p v (device_msgs p v) true
    (homie_device_messages b (homie_root p)).
Proof.
  unfold homie_device_messages, device_msgs. cbv zeta.
  apply (hands_reads p v _ true (fun p0 v0 =>
    publish b (homie_root p ++ "/$homie")
      (Text (params_get p0 "homie_convention_version" "3.0")) 0 true ;;
    publish b (homie_root p ++ "/$name")
      (Text (params_get p0 "mqtt_device_name"
               "Python MQTT Adapter for Arexx Multilogger")) 0 true ;;
    publish b (homie_root p ++ "/$nodes") (Text (nodestring v0)) 0 true ;;
    publish b (homie_root p ++ "/$state") (Text "ready") 0 true)).
  eapply hands_eq;
    [ repeat (eapply hands_bind; [|intros _]); apply hands_publish
    | reflexivity | reflexivity ].
Qed.

Lemma hands_all p v root items :
  hands b p v (republished root items)
    (Nat.eqb (carried items) (List.length items))
    (homie_all_sensors b root items).
Proof.
  induction items as [|[sid value] items IH];
    cbn [homie_all_sensors republished carried List.length].
  - apply hands_ret.
  - destruct (sensor_key value) as [s0|].
    + eapply hands_eq;
        [ eapply hands_bind; [apply hands_log; discriminate|]; intros _;
          eapply hands_bind; [apply hands_sensor|]; intros _; exact IH
        | reflexivity | reflexivity ].
    + eapply hands_eq;
        [ eapply hands_bind; [apply hands_log; discriminate|]; intros _;
          apply hands_raise_bind
        | reflexivity | reflexivity ].
Qed.

(** Under [try ... except: logging.error] an error is logged exactly when
    the body did not return. *)
Lemma hands_try p v ms e (body : M Datatypes.unit) t st :
  hands b p v ms e body -> params st = p -> values st = v ->
  let st' := snd (try_except body (fun _ => log ERROR t) st) in
  published (emitted st st') = handed b (calls st) ms
  /\ logged_error (emitted st st')
     = negb (forallb snd (handed b (calls st) ms) && e).
Proof.
  intros Hm Hp Hv. cbv zeta. unfold try_except, emitted.
  destruct (Hm st Hp Hv) as (X & HX & HP & HL & HO & _).
  destruct (body st) as [[a|ex] st1]; simpl in *; rewrite <- HO.
  - rewrite HX, skipn_emitted. auto.
  - rewrite HX, <- app_assoc, skipn_emitted.
    rewrite published_app, logged_error_app, HP, HL. simpl.
    now rewrite app_nil_r.
Qed.

(** The messages of a homie delivery of a connected publisher, for every
    behaviour of the transport. *)
Lemma homie_delivery_handed d s st :
  ready st = true ->
  let st' := sendHomieMessages b d s st in
  let p := params st in
  let v := PyDict.set (values st) (displayid s) d in
  let expected :=
    if is_new st s
    then (device_msgs p v ++ republished (homie_root p) v)%list
    else sensor_msgs (homie_root p) (displayid s) s (rawvalue d) in
  published (emitted st st') = handed b (calls st) expected
  /\ logged_error (emitted st st')
     = negb (forallb snd (handed b (calls st) expected)
             && (if is_new st s
                 then Nat.eqb (carried v) (List.length v) else true)).
Proof.
  intros Hready st' p v expected.
  unfold st', sendHomieMessages. cbn [ready params]. rewrite Hready.
  fold p v.
  match goal with |- context [try_except ?body ?h ?s1] =>
    set (st1 := s1);
    assert (Hb : hands b p v expected
                   (if is_new st s
                    then Nat.eqb (carried v) (List.length v) else true)
                   body) end.
  { unfold expected. destruct (is_new st s).
    - eapply hands_eq;
        [ eapply hands_bind; [apply hands_log; discriminate|]; intros _;
          eapply hands_bind; [apply hands_log; discriminate|]; intros _;
          eapply hands_bind; [apply hands_device|]; intros _;
          apply (hands_reads p v _ _
                   (fun _ v0 => homie_all_sensors b (homie_root p) v0));
          apply hands_all
        | reflexivity | reflexivity ].
    - eapply hands_eq;
        [ eapply hands_bind; [apply hands_log; discriminate|]; intros _;
          eapply hands_bind; [apply hands_log; discriminate|]; intros _;
          apply hands_sensor
        | reflexivity | reflexivity ]. }
  exact (hands_try p v _ _ _ "Error publishing mqtt messages: %s" st1
           Hb eq_refl eq_refl).
Qed.

End Handing.

(** C3 as amended. Under the homie convention, with a connected
    publisher, a delivery for a sensor that is not yet recorded hands the
    four device-level messages [$homie], [$name], [$nodes], [$state] to the
    transport first, in this order and up to the first call of [publish]
    that raises, with a [$nodes] list of exactly the sensors recorded at
    that instant, the new one last; this happens for every newly seen
    sensor, not only the first. A delivery for a recorded sensor hands over
    the seven messages of that sensor, again up to the first call that
    raises, and no device-level message. *)
Theorem homie_device_metadata_on_each_new_sensor
  (b : MQTTListener.Broker) (d : Data) (s : Sensor)
  (st : MQTTListener.state) :
  params_get (MQTTListener.params st) "payload_format" "home-assistant"
  = "homie" ->
  MQTTListener.ready st = true ->
  let st' := MQTTListener.onNewData b d s st in
  let p := MQTTListener.params st in
  let msgs := MQTTListener.published (MQTTListener.emitted st st') in
  if MQTTListener.is_new st s then
    PyDict.keys (MQTTListener.values st')
    = (PyDict.keys (MQTTListener.values st) ++ [displayid s])%list
    /\ firstn 4 msgs
       = handed b (MQTTListener.calls st)
           (device_msgs p (MQTTListener.values st'))
  else
    PyDict.keys (MQTTListener.values st')
    = PyDict.keys (MQTTListener.values st)
    /\ msgs
       = handed b (MQTTListener.calls st)
           (sensor_msgs (MQTTListener.homie_root p) (displayid s) s
              (rawvalue d))
    /\ MQTTListener.announcements p s (MQTTListener.emitted st st') = [].
Proof.
  intros Hh Hready st' p msgs.
  destruct (onNewData_any b d s st) as (_ & Hv & _).
  fold st' in Hv. rewrite Hh in Hv. simpl in Hv.
  assert (Hknown : PyDict.contains (MQTTListener.values st) (displayid s)
                   = negb (MQTTListener.is_new st s)).
  { unfold MQTTListener.is_new. now rewrite negb_involutive. }
  assert (Hst' : st' = MQTTListener.sendHomieMessages b d s st).
  { unfold st', MQTTListener.onNewData. now rewrite Hh. }
  destruct (homie_delivery_handed b d s st Hready) as [Hmsgs _].
  rewrite <- Hst' in Hmsgs. fold msgs p in Hmsgs.
  destruct (MQTTListener.is_new st s) eqn:Hnew.
  - split; [rewrite Hv; now apply keys_set_absent|].
    rewrite Hmsgs, Hv.
    exact (firstn_handed b (device_msgs p _) _ _).
  - split; [rewrite Hv; now apply keys_set_present|].
    split; [exact Hmsgs|].
    now apply known_sensor_not_announced.
Qed.

Lemma homie_device_metadata_on_each_new_sensor_witness :
  let st := MQTTListener.onNewData MQTTListener.reliable
              (reading_of garden 550 100) garden
              (MQTTListener.init MQTTListener.reliable
                 [("payload_format", "homie")]) in
  let st' := MQTTListener.onNewData MQTTListener.reliable
               (reading_of office 230 200) office st in
  PyDict.keys (MQTTListener.values st') = [3; 7]
  /\ map (fun mo => (MQTTListener.topic (fst mo),
                     MQTTListener.payload (fst mo), snd mo))
       (firstn 4 (MQTTListener.published (MQTTListener.emitted st st')))
     = [ ("homie/pylarexx/$homie", MQTTListener.Text "3.0", true);
         ("homie/pylarexx/$name",
          MQTTListener.Text "Python MQTT Adapter for Arexx Multilogger",
          true);
         ("homie/pylarexx/$nodes", MQTTListener.Text "sensor_3,sensor_7",
          true);
         ("homie/pylarexx/$state", MQTTListener.Text "ready", true) ].
Proof.
  intros st st'.
  pose proof (homie_device_metadata_on_each_new_sensor MQTTListener.reliable
                (reading_of office 230 200) office st
                eq_refl eq_refl) as H.
  cbv zeta in H. fold st' in H.
  change (MQTTListener.is_new st office) with true in H.
  cbv iota in H.
  destruct H as [Hk Hm]. split.
  - rewrite Hk. reflexivity.
  - rewrite Hm. reflexivity.
Defined.

(** * Further properties *)

(** ** The live-query cache: order, retries, teardown *)

Lemma existsb_eqb_in (k : Z) (l : list Z) :
  existsb (Z.eqb k) l = true <-> In k l.
Proof.
  rewrite existsb_exists. split.
  - intros (x & Hin & Heq). apply Z.eqb_eq in Heq. now subst.
  - intros Hin. exists k. split; [exact Hin | apply Z.eqb_refl].
Qed.

Lemma keys_after_set {V : Type} (d : PyDict.dict V) (k : Z) (v : V) :
  PyDict.keys (PyDict.set d k v)
  = if existsb (Z.eqb k) (PyDict.keys d) then PyDict.keys d
    else (PyDict.keys d ++ [k])%list.
Proof.
  destruct (PyDict.contains d k) eqn:Hc.
  - rewrite keys_set_present by assumption.
    apply contains_in_keys, existsb_eqb_in in Hc. now rewrite Hc.
  - rewrite keys_set_absent by assumption.
    destruct (existsb (Z.eqb k) (PyDict.keys d)) eqn:He; [|reflexivity].
    apply existsb_eqb_in, contains_in_keys in He. congruence.
Qed.

Lemma set_absent {V : Type} (d : PyDict.dict V) (k : Z) (v : V) :
  PyDict.contains d k = false -> PyDict.set d k v = (d ++ [(k, v)])%list.
Proof.
  unfold PyDict.contains.
  induction d as [|[k' v'] d IH]; simpl; [reflexivity|].
  destruct (Z.eqb_spec k' k); [discriminate|].
  intros H. now rewrite IH.
Qed.

Lemma cache_keys_run (net : RecentValuesListener.Network) rs : forall st,
  PyDict.keys (RecentValuesListener.values
                 (RecentValuesListener.deliver net rs st))
  = assigned_keys (PyDict.keys (RecentValuesListener.values st))
      (map (fun r => id (snd r)) rs).
Proof.
  induction rs as [|[d s] rs IH]; intros st; simpl; [reflexivity|].
  rewrite IH, onNewData_values, keys_after_set. reflexivity.
Qed.

(** X1. The entries of the cache, and so the lines of a response, stand in
    the order in which the sensor ids were first delivered; a later reading
    of a sensor replaces its entry in place. *)
Theorem cache_order_is_first_delivery
  (net : RecentValuesListener.Network) (rs : list (Data * Sensor)) :
  let st := RecentValuesListener.deliver net rs
              (RecentValuesListener.init net) in
  let ids := assigned_keys [] (map (fun r => id (snd r)) rs) in
  PyDict.keys (RecentValuesListener.values st) = ids
  /\ List.length (snapshot_lines st) = List.length ids
  /\ RecentValuesListener.setup st = Some (join_lines (snapshot_lines st)).
Proof.
  intros st ids.
  assert (Hk : PyDict.keys (RecentValuesListener.values st) = ids).
  { unfold st. rewrite cache_keys_run, init_values. reflexivity. }
  split; [exact Hk|]. split; [|apply setup_reachable].
  rewrite <- Hk. unfold snapshot_lines, PyDict.keys.
  now rewrite !length_map.
Qed.

Lemma cache_ready_run (net : RecentValuesListener.Network) rs : forall st,
  RecentValuesListener.ready st = true ->
  RecentValuesListener.ready (RecentValuesListener.deliver net rs st) = true
  /\ RecentValuesListener.attempts (RecentValuesListener.deliver net rs st)
     = RecentValuesListener.attempts st
  /\ RecentValuesListener.server (RecentValuesListener.deliver net rs st)
     = RecentValuesListener.server st.
Proof.
  induction rs as [|[d s] rs IH]; intros st Hr; simpl; [auto|].
  assert (Hstep :
    RecentValuesListener.ready (RecentValuesListener.onNewData net d s st)
    = true
    /\ RecentValuesListener.attempts
         (RecentValuesListener.onNewData net d s st)
       = RecentValuesListener.attempts st
    /\ RecentValuesListener.server
         (RecentValuesListener.onNewData net d s st)
       = RecentValuesListener.server st).
  { unfold RecentValuesListener.onNewData. simpl. rewrite Hr. simpl. auto. }
  destruct Hstep as (S1 & S2 & S3).
  destruct (IH _ S1) as (H1 & H2 & H3).
  rewrite H1, H2, H3, S2, S3. auto.
Qed.

Lemma cache_pending_run (net : RecentValuesListener.Network) (k : nat) rs :
  forall st,
  (forall j, (j < k)%nat -> is_started (net j) = false) ->
  is_started (net k) = true ->
  RecentValuesListener.ready st = false ->
  (RecentValuesListener.attempts st <= k)%nat ->
  let st' := RecentValuesListener.deliver net rs st in
  RecentValuesListener.attempts st'
  = Nat.min (RecentValuesListener.attempts st + List.length rs) (S k)
  /\ RecentValuesListener.ready st'
     = Nat.leb (S k) (RecentValuesListener.attempts st + List.length rs).
Proof.
  induction rs as [|[d s] rs IH]; intros st Hfail Hok Hr Hle;
    cbv zeta; cbn [RecentValuesListener.deliver List.length].
  - split; [lia|]. rewrite Hr. symmetry. apply Nat.leb_gt. lia.
  - set (n := RecentValuesListener.attempts st) in *.
    assert (Hstep :
      RecentValuesListener.attempts
        (RecentValuesListener.onNewData net d s st) = S n
      /\ RecentValuesListener.ready
           (RecentValuesListener.onNewData net d s st)
         = is_started (net n)).
    { unfold RecentValuesListener.onNewData,
        RecentValuesListener.openListeningPort; simpl. rewrite Hr; simpl.
      fold n. destruct (net n); simpl; auto. }
    destruct Hstep as [Ha Hrd].
    destruct (Nat.eq_dec n k) as [Heq|Hne].
    + rewrite Heq, Hok in Hrd.
      destruct (cache_ready_run net rs _ Hrd) as (H1 & H2 & _).
      rewrite H1, H2, Ha. split; [lia|].
      symmetry. apply Nat.leb_le. lia.
    + assert (Hlt : (n < k)%nat) by lia.
      rewrite (Hfail n Hlt) in Hrd.
      destruct (IH _ Hfail Hok Hrd) as [H1 H2]; [lia|].
      rewrite H1, H2, Ha. split; [f_equal; lia | f_equal; lia].
Qed.

(** X2. When the attempts to open the port fail until attempt [k]
    succeeds (attempt 0 is the constructor's), the listener makes one
    attempt per delivery until then and none afterwards: after [n]
    deliveries it has made [min (n + 1) (k + 1)] attempts and is ready
    exactly when [k <= n]. *)
Theorem cache_bind_attempts_until_success
  (net : RecentValuesListener.Network) (k : nat)
  (rs : list (Data * Sensor)) :
  (forall j, (j < k)%nat -> is_started (net j) = false) ->
  is_started (net k) = true ->
  let st := RecentValuesListener.deliver net rs
              (RecentValuesListener.init net) in
  RecentValuesListener.attempts st = Nat.min (S (List.length rs)) (S k)
  /\ RecentValuesListener.ready st = Nat.leb k (List.length rs).
Proof.
  intros Hfail Hok st.
  assert (Hinit : RecentValuesListener.attempts (RecentValuesListener.init net)
                  = 1%nat
                  /\ RecentValuesListener.ready (RecentValuesListener.init net)
                     = is_started (net O)).
  { unfold RecentValuesListener.init, RecentValuesListener.openListeningPort.
    simpl. destruct (net O); simpl; auto. }
  destruct Hinit as [Ha Hr]. destruct k as [|k].
  - rewrite Hok in Hr.
    destruct (cache_ready_run net rs _ Hr) as (H1 & H2 & _).
    unfold st. rewrite H1, H2, Ha. split; [lia | reflexivity].
  - rewrite (Hfail O) in Hr by lia.
    destruct (cache_pending_run net (S k) rs _ Hfail Hok Hr) as [H1 H2];
      [lia|].
    unfold st. rewrite H1, H2, Ha. split; reflexivity.
Qed.

Lemma cache_bind_attempts_until_success_witness :
  let st := RecentValuesListener.deliver (opens_at 2)
              [(reading 230 100, office); (reading 231 200, office);
               (reading 232 300, office)]
              (RecentValuesListener.init (opens_at 2)) in
  RecentValuesListener.attempts st = 3%nat
  /\ RecentValuesListener.ready st = true.
Proof.
  apply (cache_bind_attempts_until_success (opens_at 2) 2
           [(reading 230 100, office); (reading 231 200, office);
            (reading 232 300, office)]).
  - intros [|[|j]] Hj; try reflexivity. lia.
  - reflexivity.
Defined.

(** X3. When the port opens at construction, [__init__] overwrites
    [self.server] with [None] after the server was stored, and no later
    call opens a port again: after every run [self.server] is [None], so
    [__del__] raises [AttributeError] instead of closing the server. *)
Theorem cache_del_raises_after_early_bind
  (net : RecentValuesListener.Network) (rs : list (Data * Sensor)) :
  is_started (net O) = true ->
  let st := RecentValuesListener.deliver net rs
              (RecentValuesListener.init net) in
  RecentValuesListener.ready st = true
  /\ RecentValuesListener.server st = None
  /\ cache_del st = FileOutListener.Raises "AttributeError".
Proof.
  intros Hok st.
  assert (Hinit : RecentValuesListener.ready (RecentValuesListener.init net)
                  = true
                  /\ RecentValuesListener.server
                       (RecentValuesListener.init net) = None).
  { unfold RecentValuesListener.init, RecentValuesListener.openListeningPort.
    simpl. destruct (net O); simpl in *; try discriminate; auto. }
  destruct Hinit as [Hr Hs].
  destruct (cache_ready_run net rs _ Hr) as (H1 & _ & H3).
  unfold cache_del, st. rewrite H1, H3, Hs. auto.
Qed.

Lemma cache_del_raises_after_early_bind_witness :
  cache_del
    (RecentValuesListener.deliver (opens_at 0)
       [(reading 230 100, office)]
       (RecentValuesListener.init (opens_at 0)))
  = FileOutListener.Raises "AttributeError".
Proof.
  apply (cache_del_raises_after_early_bind (opens_at 0)
           [(reading 230 100, office)]).
  reflexivity.
Defined.

Lemma render_missing_last (ss : PyDict.dict Sensor) (k : Z) (d : Data)
  (items : list (Z * Data)) : forall acc,
  PyDict.get ss k = None ->
  RecentValuesListener.render ss (items ++ [(k, d)]) acc = None.
Proof.
  induction items as [|[sid v] items IH]; intros acc Hk; simpl.
  - now rewrite Hk.
  - destruct (PyDict.get ss sid); [now apply IH | reflexivity].
Qed.

(** X4. [onNewData] assigns [values] before [sensors]. For a sensor id
    that is not yet cached, a request handled between the two assignments
    finds the id in [values] but not in [sensors]: the handler raises
    [KeyError] and sends no response. Once [onNewData] has returned the
    handler answers again. *)
Theorem cache_handler_between_assignments
  (net : RecentValuesListener.Network) (rs : list (Data * Sensor))
  (d : Data) (s : Sensor) :
  let st := RecentValuesListener.deliver net rs
              (RecentValuesListener.init net) in
  PyDict.contains (RecentValuesListener.values st) (id s) = false ->
  RecentValuesListener.setup (values_assigned d s st) = None
  /\ RecentValuesListener.values (RecentValuesListener.onNewData net d s st)
     = RecentValuesListener.values (values_assigned d s st)
  /\ exists response,
       RecentValuesListener.setup (RecentValuesListener.onNewData net d s st)
       = Some response.
Proof.
  intros st Hnew.
  assert (Hk : PyDict.keys (RecentValuesListener.values st)
               = PyDict.keys (RecentValuesListener.sensors st)).
  { apply deliver_keys. now rewrite init_values, init_sensors. }
  split; [|split].
  - unfold RecentValuesListener.setup, values_assigned. simpl.
    rewrite set_absent by assumption. apply render_missing_last.
    destruct (PyDict.get (RecentValuesListener.sensors st) (id s)) eqn:Hg;
      [|reflexivity].
    assert (Hc : PyDict.contains (RecentValuesListener.sensors st) (id s)
                 = true) by (unfold PyDict.contains; now rewrite Hg).
    apply contains_in_keys in Hc. rewrite <- Hk in Hc.
    apply contains_in_keys in Hc. congruence.
  - now rewrite onNewData_values.
  - eexists. unfold RecentValuesListener.setup. apply render_total.
    rewrite onNewData_values, onNewData_sensors.
    rewrite (keys_set_eq _ (RecentValuesListener.sensors st) _ d s Hk).
    apply incl_refl.
Qed.

Lemma cache_handler_between_assignments_witness :
  RecentValuesListener.setup
    (values_assigned (reading 550 200) garden
       (RecentValuesListener.deliver (opens_at 0)
          [(reading 230 100, office)]
          (RecentValuesListener.init (opens_at 0)))) = None.
Proof.
  apply (cache_handler_between_assignments (opens_at 0)
           [(reading 230 100, office)] (reading 550 200) garden).
  reflexivity.
Defined.

(** ** The flat-file sink *)

Section FileOut.
Import FileOutListener.
Variable fs : FileSystem.
Hypothesis writes_ok : forall n, write_ok fs n = true.

Lemma fileout_ready_run rs : forall st,
  status st = "ready" ->
  written (deliver fs rs st)
  = written st ++ join_lines (map record_of rs)
  /\ opens (deliver fs rs st) = opens st
  /\ fd (deliver fs rs st) = fd st.
Proof.
  induction rs as [|[d s] rs IH]; intros st Hs; simpl.
  - now rewrite append_empty_r.
  - assert (Hstep : snd (onNewData fs d s st)
                    = {| status := "ready"; fd := fd st; opens := opens st;
                         writes := S (writes st);
                         written := written st ++ line s d;
                         events := (events st ++ [Write (line s d) true])%list
                      |}).
    { unfold onNewData. rewrite Hs. simpl. rewrite Hs. simpl.
      unfold fd_write. rewrite writes_ok, Hs. reflexivity. }
    rewrite Hstep.
    match goal with |- context [deliver fs rs ?s0] =>
      destruct (IH s0 eq_refl) as (H1 & H2 & H3) end.
    rewrite H1, H2, H3. simpl. unfold record_of at 2. simpl.
    now rewrite append_assoc.
Qed.

Lemma fileout_open_fails st :
  String.eqb (status st) "ready" = false ->
  open_ok fs (opens st) = false ->
  forall d s,
  snd (onNewData fs d s st)
  = {| status := "error"; fd := fd st; opens := S (opens st);
       writes := writes st; written := written st;
       events := (events st ++
         [Open (opens st) false;
          Log ERROR
            "FileOutListener: Unable to open file %s. Error message: %s"])%list
    |}.
Proof.
  intros Hs Ho d s. unfold onNewData, openLogfile.
  rewrite Hs, Ho. reflexivity.
Qed.

Lemma fileout_pending_run (k : nat) rs : forall st,
  (forall j, (j < k)%nat -> open_ok fs j = false) ->
  open_ok fs k = true ->
  String.eqb (status st) "ready" = false ->
  (opens st <= k)%nat ->
  written (deliver fs rs st)
  = written st ++ join_lines (map record_of (skipn (k - opens st) rs))
  /\ opens (deliver fs rs st) = Nat.min (opens st + List.length rs) (S k).
Proof.
  induction rs as [|[d s] rs IH]; intros st Hfail Hok Hs Hle;
    cbn [deliver List.length].
  - rewrite skipn_nil. simpl. rewrite append_empty_r. split; [auto | lia].
  - destruct (Nat.eq_dec (opens st) k) as [Heq|Hne].
    + assert (Hstep : snd (onNewData fs d s st)
                      = {| status := "ready"; fd := Some (opens st);
                           opens := S (opens st); writes := S (writes st);
                           written := written st ++ line s d;
                           events := ((events st ++ [Open (opens st) true])
                                      ++ [Write (line s d) true])%list |}).
      { unfold onNewData, openLogfile. rewrite Hs. simpl.
        rewrite Heq, Hok. simpl. unfold fd_write. simpl.
        rewrite writes_ok. reflexivity. }
      rewrite Hstep.
      match goal with |- context [deliver fs rs ?s0] =>
        destruct (fileout_ready_run rs s0 eq_refl) as (H1 & H2 & _) end.
      rewrite H1, H2. simpl. rewrite Heq, Nat.sub_diag. simpl.
      unfold record_of at 2. simpl. rewrite append_assoc. split; [auto|lia].
    + assert (Hlt : (opens st < k)%nat) by lia.
      rewrite (fileout_open_fails st Hs (Hfail _ Hlt)).
      match goal with |- context [deliver fs rs ?s0] =>
        destruct (IH s0 Hfail Hok eq_refl) as [H1 H2]; [simpl; lia|] end.
      rewrite H1, H2. simpl.
      replace (k - opens st)%nat with (S (k - S (opens st))) by lia.
      simpl. split; [reflexivity | lia].
Qed.

End FileOut.

(** X5. The file sink keeps nothing in memory. When [open] fails until
    attempt [k] succeeds (attempt 0 is the constructor's, one more per
    delivery while the file is not open) and every write returns, the file
    receives the records of the deliveries from the [k]-th on, in order;
    the readings delivered before are lost, and the file is opened once. *)
Theorem fileout_writes_after_first_open
  (fs : FileOutListener.FileSystem) (k : nat) (rs : list (Data * Sensor)) :
  (forall n, FileOutListener.write_ok fs n = true) ->
  (forall j, (j < k)%nat -> FileOutListener.open_ok fs j = false) ->
  FileOutListener.open_ok fs k = true ->
  let st := FileOutListener.deliver fs rs (FileOutListener.init fs) in
  FileOutListener.written st
  = join_lines (map record_of (skipn (k - 1) rs))
  /\ FileOutListener.opens st = Nat.min (S (List.length rs)) (S k).
Proof.
  intros Hw Hfail Hok st. unfold st, FileOutListener.init.
  destruct k as [|k].
  - unfold FileOutListener.openLogfile. simpl. rewrite Hok.
    match goal with |- context [FileOutListener.deliver fs rs ?s0] =>
      destruct (fileout_ready_run fs Hw rs s0 eq_refl) as (H1 & H2 & _) end.
    rewrite H1, H2. simpl. split; [reflexivity | lia].
  - unfold FileOutListener.openLogfile. simpl.
    rewrite (Hfail O) by lia.
    match goal with |- context [FileOutListener.deliver fs rs ?s0] =>
      destruct (fileout_pending_run fs Hw (S k) rs s0 Hfail Hok eq_refl)
        as (H1 & H2); [simpl; lia|] end.
    rewrite H1, H2. simpl. rewrite Nat.sub_0_r. split; reflexivity.
Qed.

Lemma fileout_writes_after_first_open_witness :
  let fs := {| FileOutListener.open_ok := fun n => Nat.eqb n 2;
               FileOutListener.write_ok := fun _ => true |} in
  FileOutListener.written
    (FileOutListener.deliver fs
       [(reading 230 100, office); (reading 231 200, office);
        (reading 232 300, office)]
       (FileOutListener.init fs))
  = join_lines
      [record_of (reading 231 200, office);
       record_of (reading 232 300, office)].
Proof.
  intros fs.
  apply (fileout_writes_after_first_open fs 2
           [(reading 230 100, office); (reading 231 200, office);
            (reading 232 300, office)]).
  - reflexivity.
  - intros [|[|j]] Hj; try reflexivity. lia.
  - reflexivity.
Defined.

(** X6. When no [open] ever succeeds the sink drops every reading, makes
    one attempt per delivery on top of the constructor's, and its
    [__del__] raises [AttributeError], [self.fd] never having been
    assigned. *)
Theorem fileout_never_opened
  (fs : FileOutListener.FileSystem) (rs : list (Data * Sensor)) :
  (forall n, FileOutListener.open_ok fs n = false) ->
  let st := FileOutListener.deliver fs rs (FileOutListener.init fs) in
  FileOutListener.written st = ""
  /\ FileOutListener.opens st = S (List.length rs)
  /\ FileOutListener.status st = "error"
  /\ FileOutListener.del st = FileOutListener.Raises "AttributeError".
Proof.
  intros Hfail st.
  assert (Hgen : forall rs st0,
            String.eqb (FileOutListener.status st0) "ready" = false ->
            let st1 := FileOutListener.deliver fs rs st0 in
            FileOutListener.written st1 = FileOutListener.written st0
            /\ FileOutListener.opens st1
               = (FileOutListener.opens st0 + List.length rs)%nat
            /\ FileOutListener.fd st1 = FileOutListener.fd st0
            /\ (rs <> [] -> FileOutListener.status st1 = "error")).
  { clear rs st. induction rs as [|[d s] rs IH]; intros st0 Hs; simpl.
    - repeat split; auto. now intros [].
    - rewrite (fileout_open_fails fs st0 Hs (Hfail _)).
      match goal with |- context [FileOutListener.deliver fs rs ?s0] =>
        destruct (IH s0 eq_refl) as (H1 & H2 & H3 & H4) end.
      rewrite H1, H2, H3. simpl.
      split; [reflexivity|]. split; [lia|]. split; [reflexivity|].
      intros _. destruct rs as [|r rs]; [reflexivity|].
      apply H4. discriminate. }
  unfold st, FileOutListener.init.
  unfold FileOutListener.openLogfile. simpl. rewrite Hfail.
  match goal with |- context [FileOutListener.deliver fs rs ?s0] =>
    destruct (Hgen rs s0 eq_refl) as (H1 & H2 & H3 & H4) end.
  unfold FileOutListener.del. rewrite H1, H2, H3. simpl.
  repeat split; auto.
  destruct rs as [|r rs]; [reflexivity|]. apply H4. discriminate.
Qed.

Lemma fileout_never_opened_witness :
  let fs := {| FileOutListener.open_ok := fun _ => false;
               FileOutListener.write_ok := fun _ => true |} in
  FileOutListener.del
    (FileOutListener.deliver fs [(reading 230 100, office)]
       (FileOutListener.init fs))
  = FileOutListener.Raises "AttributeError".
Proof.
  intros fs.
  apply (fileout_never_opened fs [(reading 230 100, office)]).
  reflexivity.
Defined.

(** ** The MQTT publisher: construction, formats, message kinds *)

Section PublisherTrace.
Import MQTTListener.
Variable b : Broker.

Lemma adds_ret {A} Q (a : A) : adds Q (ret a).
Proof. intros st. exists []. simpl. now rewrite app_nil_r. Qed.

Lemma adds_raise {A} Q e : adds Q (@raise A e).
Proof. intros st. exists []. simpl. now rewrite app_nil_r. Qed.

Lemma adds_log (Q : Event -> Prop) l t : Q (Log l t) -> adds Q (log l t).
Proof. intros H st. exists [Log l t]. simpl. auto. Qed.

Lemma adds_publish (Q : Event -> Prop) t pl q r :
  (forall ok,
     Q (Publish {| topic := t; payload := pl; qos := q; retain := r |} ok)) ->
  adds Q (publish b t pl q r).
Proof. intros H st. eexists. simpl. split; [reflexivity | auto]. Qed.

Lemma adds_bind {A B} Q (m : M A) (k : A -> M B) :
  adds Q m -> (forall a, adds Q (k a)) -> adds Q (bind m k).
Proof.
  intros Hm Hk st. unfold bind.
  destruct (Hm st) as (X & HX & HF).
  destruct (m st) as [[a|e] st1]; simpl in *.
  - destruct (Hk a st1) as (Y & HY & HG).
    exists (X ++ Y)%list. split.
    + rewrite HY, HX. now rewrite app_assoc.
    + apply Forall_app. now split.
  - now exists X.
Qed.

Lemma adds_try Q (body : M Datatypes.unit) handler :
  adds Q body -> (forall e, adds Q (handler e)) ->
  adds Q (try_except body handler).
Proof.
  intros Hm Hk st. unfold try_except.
  destruct (Hm st) as (X & HX & HF).
  destruct (body st) as [[a|e] st1]; simpl in *.
  - now exists X.
  - destruct (Hk e st1) as (Y & HY & HG).
    exists (X ++ Y)%list. split.
    + rewrite HY, HX. now rewrite app_assoc.
    + apply Forall_app. now split.
Qed.

Lemma adds_state {A} Q (f : state -> M A) :
  (forall st0, adds Q (f st0)) -> adds Q (fun st => f st st).
Proof. intros H st. apply (H st st). Qed.

Lemma adds_homie_sensor (Q : Event -> Prop) root sid s raw :
  (forall suffix pl ok,
     Q (Publish {| topic := homie_node root sid ++ suffix; payload := pl;
                   qos := 0; retain := false |} ok)) ->
  adds Q (homie_sensor_messages b root sid s raw).
Proof.
  intros HQ. unfold homie_sensor_messages. cbv zeta.
  repeat (apply adds_bind; [|intros _]);
    apply adds_publish; intros ok; rewrite ?append_assoc; apply HQ.
Qed.

Lemma adds_homie_all (Q : Event -> Prop) root items :
  (forall l t, Q (Log l t)) ->
  (forall sid suffix pl ok,
     Q (Publish {| topic := homie_node root sid ++ suffix; payload := pl;
                   qos := 0; retain := false |} ok)) ->
  adds Q (homie_all_sensors b root items).
Proof.
  intros HL HQ.
  induction items as [|[sid value] items IH]; simpl; [apply adds_ret|].
  apply adds_bind; [apply adds_log, HL|]. intros _.
  apply adds_bind; [|intros _; exact IH].
  destruct (sensor_key value); [|apply adds_raise].
  apply adds_homie_sensor. intros. apply HQ.
Qed.

Lemma device_topic_announced p suffix :
  In suffix ["/$homie"; "/$name"; "/$nodes"; "/$state"] ->
  existsb (String.eqb (homie_root p ++ suffix)) (device_topics p) = true.
Proof.
  unfold device_topics. cbn [existsb]. rewrite !eqb_app_prefix.
  intros [<-|[<-|[<-|[<-|[]]]]]; reflexivity.
Qed.

(** Every event of a delivery is a log line or a message of the kinds
    described by [delivery_event]. *)
Lemma onNewData_adds d s st :
  exists X,
    events (onNewData b d s st) = (events st ++ X)%list
    /\ Forall (delivery_event (params st) s) X.
Proof.
  set (p := params st). set (Q := delivery_event p s).
  assert (HL : forall l t, Q (Log l t)) by (intros; exact I).
  assert (Hnone : exists X, events st = (events st ++ X)%list /\ Forall Q X).
  { exists []. now rewrite app_nil_r. }
  unfold onNewData. fold p.
  destruct (String.eqb_spec (params_get p "payload_format" "home-assistant")
              "homie") as [Hh|Hne].
  - rewrite Hh. cbn [String.eqb Ascii.eqb Bool.eqb].
    assert (HQdev : forall suffix pl ok,
              In suffix ["/$homie"; "/$name"; "/$nodes"; "/$state"] ->
              Q (Publish {| topic := homie_root p ++ suffix; payload := pl;
                            qos := 0; retain := true |} ok)).
    { intros suffix pl ok Hin. split; [reflexivity|]. unfold is_announcement.
      rewrite Hh. cbn [String.eqb Ascii.eqb Bool.eqb topic retain].
      symmetry. now apply device_topic_announced. }
    assert (HQnode : forall sid suffix pl ok,
              Q (Publish {| topic := homie_node (homie_root p) sid ++ suffix;
                            payload := pl; qos := 0; retain := false |} ok)).
    { intros sid suffix pl ok. split; [reflexivity|]. unfold is_announcement.
      rewrite Hh. cbn [String.eqb Ascii.eqb Bool.eqb topic retain].
      symmetry. apply node_topic_not_device. }
    unfold sendHomieMessages. cbn [ready params]. fold p.
    destruct (ready st); [|exact Hnone].
    match goal with |- context [try_except ?body ?h ?st1] =>
      assert (Ha : adds Q (try_except body h));
      [|destruct (Ha st1) as (X & HX & HF); now exists X] end.
    apply adds_try; [|intros; apply adds_log, HL].
    apply adds_bind; [apply adds_log, HL|]. intros _.
    destruct (is_new st s).
    + apply adds_bind; [apply adds_log, HL|]. intros _.
      apply adds_bind.
      * unfold homie_device_messages.
        apply (adds_state Q (fun st0 =>
          publish b (homie_root p ++ "/$homie")
            (Text (params_get (params st0) "homie_convention_version" "3.0"))
            0 true ;;
          publish b (homie_root p ++ "/$name")
            (Text (params_get (params st0) "mqtt_device_name"
                     "Python MQTT Adapter for Arexx Multilogger"))
            0 true ;;
          publish b (homie_root p ++ "/$nodes")
            (Text (nodestring (values st0))) 0 true ;;
          publish b (homie_root p ++ "/$state") (Text "ready") 0 true)).
        intros st0.
        repeat (apply adds_bind; [|intros _]);
          apply adds_publish; intros ok; apply HQdev; simpl; auto.
      * intros _.
        apply (adds_state Q (fun st0 =>
          homie_all_sensors b (homie_root p) (values st0))).
        intros st0. now apply adds_homie_all.
    + apply adds_bind; [apply adds_log, HL|]. intros _.
      apply adds_homie_sensor. intros. apply HQnode.
  - apply String.eqb_neq in Hne.
    destruct (String.eqb_spec (params_get p "payload_format" "home-assistant")
                "home-assistant") as [Hha|Hother]; [|exact Hnone].
    unfold sendHomeAssistantMessage. fold p.
    destruct (ready st); [|exact Hnone].
    match goal with |- context [try_except ?body ?h st] =>
      assert (Ha : adds Q (try_except body h));
      [|destruct (Ha st) as (X & HX & HF); now exists X] end.
    apply adds_try; [|intros; apply adds_log, HL].
    apply adds_bind.
    + destruct (is_new st s); [|apply adds_ret].
      apply adds_bind; [apply adds_log, HL|]. intros _.
      apply adds_publish. intros ok. split; [reflexivity|].
      unfold is_announcement. rewrite Hne. cbn [topic retain].
      now rewrite String.eqb_refl.
    + intros _. apply adds_publish. intros ok. split; [reflexivity|].
      unfold is_announcement. rewrite Hne. cbn [topic retain].
      symmetry. apply ha_state_not_config.
Qed.

Lemma connects_app (x y : list Event) :
  connects (x ++ y) = (connects x + connects y)%nat.
Proof.
  induction x as [|[ | | | ] x IH]; simpl; auto.
Qed.

Lemma delivery_no_connect p s X :
  Forall (delivery_event p s) X -> connects X = O.
Proof.
  induction 1 as [|ev X Hev HX IH]; simpl; [reflexivity|].
  destruct ev; simpl in *; auto; contradiction.
Qed.

Lemma delivery_published p s X :
  Forall (delivery_event p s) X ->
  Forall (fun mo => qos (fst mo) = 0
                    /\ retain (fst mo) = is_announcement p s (fst mo))
    (published X).
Proof.
  induction 1 as [|ev X Hev HX IH]; simpl; [constructor|].
  destruct ev; simpl in *; auto.
Qed.

Lemma init_params_values p :
  params (init b p) = p /\ values (init b p) = []
  /\ ready (init b p) = (connect_ok b && loop_start_ok b)%bool
  /\ events (init b p)
     = (Log INFO "Connecting to mqtt broker at %s:%s"
        :: Connect (connect_ok b)
        :: (if connect_ok b then [LoopStart (loop_start_ok b)] else [])
        ++ (if (connect_ok b && loop_start_ok b)%bool then []
            else [Log ERROR
                    "Unable to communicate with mqtt broker: %s"]))%list.
Proof.
  unfold init, connect, try_except, bind, mqtt_connect, loop_start, log,
    set_ready, emit.
  destruct (connect_ok b), (loop_start_ok b); simpl; auto.
Qed.

Lemma deliver_invariants rs : forall st,
  params (deliver b rs st) = params st
  /\ ready (deliver b rs st) = ready st
  /\ connects (events (deliver b rs st)) = connects (events st).
Proof.
  induction rs as [|[d s] rs IH]; intros st; simpl; [auto|].
  destruct (IH (onNewData b d s st)) as (H1 & H2 & H3).
  destruct (onNewData_any b d s st) as (Hp & _ & Hr & _).
  destruct (onNewData_adds d s st) as (X & HX & HF).
  rewrite H1, H2, H3, Hp, Hr, HX, connects_app.
  rewrite (delivery_no_connect _ _ _ HF). auto.
Qed.

End PublisherTrace.

(** X7. A [payload_format] other than [homie] and [home-assistant] turns
    [onNewData] into a no-op: nothing is recorded, logged or published. *)
Theorem mqtt_unknown_format_is_ignored
  (b : MQTTListener.Broker) (d : Data) (s : Sensor)
  (st : MQTTListener.state) :
  params_get (MQTTListener.params st) "payload_format" "home-assistant"
  <> "homie" ->
  params_get (MQTTListener.params st) "payload_format" "home-assistant"
  <> "home-assistant" ->
  MQTTListener.onNewData b d s st = st.
Proof.
  intros H1 H2. unfold MQTTListener.onNewData.
  apply String.eqb_neq in H1, H2. now rewrite H1, H2.
Qed.

Lemma mqtt_unknown_format_is_ignored_witness :
  let st := MQTTListener.init MQTTListener.reliable
              [("payload_format", "json")] in
  MQTTListener.onNewData MQTTListener.reliable (reading 550 100) garden st
  = st.
Proof.
  intros st.
  apply (mqtt_unknown_format_is_ignored MQTTListener.reliable
           (reading 550 100) garden st); discriminate.
Defined.

(** X8. Whether the publisher is ready is decided once, in the
    constructor: [ready] is true exactly when both [connect] and
    [loop_start] returned ([loop_start] is not called after a failed
    [connect], and a failure is logged). No delivery changes [ready] or the
    parameters, and [connect] is called once in the whole run, whatever the
    broker does. *)
Theorem mqtt_ready_is_decided_at_construction
  (b : MQTTListener.Broker) (p : Params) (rs : list (Data * Sensor)) :
  let st0 := MQTTListener.init b p in
  let st := MQTTListener.deliver b rs st0 in
  MQTTListener.ready st0
  = (MQTTListener.connect_ok b && MQTTListener.loop_start_ok b)%bool
  /\ MQTTListener.events st0
     = (MQTTListener.Log INFO "Connecting to mqtt broker at %s:%s"
        :: MQTTListener.Connect (MQTTListener.connect_ok b)
        :: (if MQTTListener.connect_ok b
            then [MQTTListener.LoopStart (MQTTListener.loop_start_ok b)]
            else [])
        ++ (if (MQTTListener.connect_ok b
                && MQTTListener.loop_start_ok b)%bool
            then []
            else [MQTTListener.Log ERROR
                    "Unable to communicate with mqtt broker: %s"]))%list
  /\ MQTTListener.ready st = MQTTListener.ready st0
  /\ MQTTListener.params st = p
  /\ MQTTListener.connects (MQTTListener.events st) = 1%nat.
Proof.
  intros st0 st.
  destruct (init_params_values b p) as (Hp & _ & Hr & He).
  destruct (deliver_invariants b rs st0) as (H1 & H2 & H3).
  fold st0 in Hp, Hr, He. fold st in H1, H2, H3.
  repeat split; auto; try congruence.
  rewrite H3, He. simpl.
  destruct (MQTTListener.connect_ok b), (MQTTListener.loop_start_ok b);
    reflexivity.
Qed.

(** X9. Every message a delivery hands to the transport has quality of
    service 0 and is retained exactly when it is a discovery message (the
    config message of the sensor under home-assistant, a device-level
    message under homie): state payloads and the sensor messages of homie
    are never retained. This holds under either convention and whatever
    the transport does. *)
Theorem mqtt_retained_iff_discovery
  (b : MQTTListener.Broker) (d : Data) (s : Sensor)
  (st : MQTTListener.state) :
  Forall (fun mo =>
            MQTTListener.qos (fst mo) = 0
            /\ MQTTListener.retain (fst mo)
               = MQTTListener.is_announcement (MQTTListener.params st) s
                   (fst mo))
    (MQTTListener.published
       (MQTTListener.emitted st (MQTTListener.onNewData b d s st))).
Proof.
  destruct (onNewData_adds b d s st) as (X & HX & HF).
  unfold MQTTListener.emitted. rewrite HX, skipn_emitted.
  now apply delivery_published.
Qed.

(** ** The MQTT publisher: what homie records and re-publishes *)

Lemma homie_values_run (b : MQTTListener.Broker) rs : forall st,
  params_get (MQTTListener.params st) "payload_format" "home-assistant"
  = "homie" ->
  PyDict.keys (MQTTListener.values (MQTTListener.deliver b rs st))
  = assigned_keys (PyDict.keys (MQTTListener.values st))
      (map (fun r => displayid (snd r)) rs)
  /\ forall did,
       PyDict.get (MQTTListener.values (MQTTListener.deliver b rs st)) did
       = match latest_displayed rs did with
         | Some r => Some r
         | None => PyDict.get (MQTTListener.values st) did
         end.
Proof.
  induction rs as [|[d s] rs IH]; intros st Hh; simpl; [auto|].
  destruct (onNewData_any b d s st) as (Hp & Hv & _).
  rewrite Hh in Hv. simpl in Hv.
  destruct (IH (MQTTListener.onNewData b d s st)) as [H1 H2];
    [now rewrite Hp|].
  split.
  - rewrite H1, Hv, keys_after_set. reflexivity.
  - intros did. rewrite H2, Hv.
    destruct (latest_displayed rs did); [reflexivity|].
    destruct (Z.eqb_spec (displayid s) did) as [<-|Hne].
    + apply get_set_same.
    + now apply get_set_other.
Qed.

(** X10. Under the homie convention the publisher records every reading
    before it looks at [ready] or at the transport: after any run, with
    any broker, [values] holds for each displayid the reading delivered
    last, in the order in which the displayids were first seen. *)
Theorem mqtt_homie_records_latest
  (b : MQTTListener.Broker) (p : Params) (rs : list (Data * Sensor)) :
  params_get p "payload_format" "home-assistant" = "homie" ->
  let st := MQTTListener.deliver b rs (MQTTListener.init b p) in
  PyDict.keys (MQTTListener.values st)
  = assigned_keys [] (map (fun r => displayid (snd r)) rs)
  /\ forall did,
       PyDict.get (MQTTListener.values st) did = latest_displayed rs did.
Proof.
  intros Hh st.
  destruct (init_params_values b p) as (Hp & Hv & _).
  destruct (homie_values_run b rs (MQTTListener.init b p)) as [H1 H2];
    [now rewrite Hp|].
  fold st in H1, H2. rewrite Hv in H1. split; [exact H1|].
  intros did. rewrite H2, Hv. now destruct (latest_displayed rs did).
Qed.

Lemma mqtt_homie_records_latest_witness :
  let st := MQTTListener.deliver unreachable_broker
              [(reading 550 100, garden); (reading 230 200, office);
               (reading 560 300, garden)]
              (MQTTListener.init unreachable_broker
                 [("payload_format", "homie")]) in
  PyDict.keys (MQTTListener.values st) = [3; 7]
  /\ PyDict.get (MQTTListener.values st) 3 = Some (reading 560 300).
Proof.
  intros st.
  destruct (mqtt_homie_records_latest unreachable_broker
              [("payload_format", "homie")]
              [(reading 550 100, garden); (reading 230 200, office);
               (reading 560 300, garden)] eq_refl) as [H1 H2].
  fold st in H1, H2. split; [exact H1 | exact (H2 3)].
Defined.

Lemma handed_reliable (b : MQTTListener.Broker) ms :
  (forall n, MQTTListener.publish_ok b n = true) ->
  forall n, handed b n ms = map (fun m => (m, true)) ms.
Proof.
  intros Hb. induction ms as [|m ms IH]; intros n; simpl; [reflexivity|].
  now rewrite Hb, IH.
Qed.

(** X11. Under the homie convention, with a connected publisher, the
    first reading of a sensor hands to the transport, in this order and up
    to the first call of [publish] that raises, the four device-level
    messages and then the seven messages of every recorded sensor in dict
    order, not only of the new one, each built from the sensor and the raw
    value stored with that sensor's last reading, until an entry of
    [values] carries no sensor. With a transport that accepts every
    message these are exactly the messages published. An error is logged
    exactly when a call raised or some entry carries no sensor. *)
Theorem mqtt_homie_new_sensor_republishes_all
  (b : MQTTListener.Broker) (d : Data) (s : Sensor)
  (st : MQTTListener.state) :
  params_get (MQTTListener.params st) "payload_format" "home-assistant"
  = "homie" ->
  MQTTListener.ready st = true ->
  MQTTListener.is_new st s = true ->
  let st' := MQTTListener.onNewData b d s st in
  let p := MQTTListener.params st in
  let v := MQTTListener.values st' in
  let expected :=
    (device_msgs p v ++ republished (MQTTListener.homie_root p) v)%list in
  let msgs := MQTTListener.published (MQTTListener.emitted st st') in
  msgs = handed b (MQTTListener.calls st) expected
  /\ MQTTListener.logged_error (MQTTListener.emitted st st')
     = negb (forallb snd (handed b (MQTTListener.calls st) expected)
             && Nat.eqb (carried v) (List.length v))
  /\ ((forall n, MQTTListener.publish_ok b n = true) ->
      msgs = map (fun m => (m, true)) expected).
Proof.
  intros Hh Hready Hnew st' p v expected msgs.
  assert (Hst' : st' = MQTTListener.sendHomieMessages b d s st).
  { unfold st', MQTTListener.onNewData. now rewrite Hh. }
  destruct (onNewData_any b d s st) as (_ & Hv & _).
  fold st' in Hv. rewrite Hh in Hv. simpl in Hv. fold v in Hv.
  destruct (homie_delivery_handed b d s st Hready) as [Hmsgs Hlog].
  rewrite <- Hst', Hnew in Hmsgs, Hlog.
  rewrite <- Hv in Hmsgs, Hlog. fold p expected msgs in Hmsgs, Hlog.
  split; [exact Hmsgs|]. split; [exact Hlog|].
  intros Hb. rewrite Hmsgs. now apply handed_reliable.
Qed.

Lemma mqtt_homie_new_sensor_republishes_all_witness :
  let st := MQTTListener.onNewData MQTTListener.reliable
              (reading_of garden 550 100) garden
              (MQTTListener.init MQTTListener.reliable
                 [("payload_format", "homie")]) in
  let st' := MQTTListener.onNewData MQTTListener.reliable
               (reading_of office 230 200) office st in
  map (fun mo => (MQTTListener.topic (fst mo),
                  MQTTListener.payload (fst mo), snd mo))
    (MQTTListener.published (MQTTListener.emitted st st'))
  = map (fun tp => (fst tp, MQTTListener.Text (snd tp), true))
      [ ("homie/pylarexx/$homie", "3.0");
        ("homie/pylarexx/$name",
         "Python MQTT Adapter for Arexx Multilogger");
        ("homie/pylarexx/$nodes", "sensor_3,sensor_7");
        ("homie/pylarexx/$state", "ready");
        ("homie/pylarexx/sensor_3/$type", "TSN-TH70E");
        ("homie/pylarexx/sensor_3/$name", "Garden");
        ("homie/pylarexx/sensor_3/$properties", "relative humidity");
        ("homie/pylarexx/sensor_3/relative humidity/$name",
         "Garden Relative Humidity");
        ("homie/pylarexx/sensor_3/relative humidity/$datatype", "float");
        ("homie/pylarexx/sensor_3/relative humidity/$unit", "%RH");
        ("homie/pylarexx/sensor_3/relative humidity", "55.00");
        ("homie/pylarexx/sensor_7/$type", "TL-3TSN");
        ("homie/pylarexx/sensor_7/$name", "Office");
        ("homie/pylarexx/sensor_7/$properties", "temperature");
        ("homie/pylarexx/sensor_7/temperature/$name", "Office Temperature");
        ("homie/pylarexx/sensor_7/temperature/$datatype", "float");
        ("homie/pylarexx/sensor_7/temperature/$unit", "C");
        ("homie/pylarexx/sensor_7/temperature", "23.00") ].
Proof.
  intros st st'.
  destruct (mqtt_homie_new_sensor_republishes_all MQTTListener.reliable
              (reading_of office 230 200) office st
              eq_refl eq_refl eq_refl) as (H1 & _ & _).
  fold st' in H1. rewrite H1. vm_compute. reflexivity.
Defined.



(** X12. Under the home-assistant convention every delivery of a
    connected publisher starts with the config message, and when that
    call of [publish] raises, the state payload of the reading is not
    published at all: the delivery hands the config message alone to the
    transport and logs an error. *)
Theorem mqtt_ha_failed_config_drops_state
  (b : MQTTListener.Broker) (p : Params) (rs : list (Data * Sensor))
  (d : Data) (s : Sensor) :
  params_get p "payload_format" "home-assistant" = "home-assistant" ->
  let st := MQTTListener.deliver b rs (MQTTListener.init b p) in
  MQTTListener.ready st = true ->
  MQTTListener.publish_ok b (MQTTListener.calls st) = false ->
  let st' := MQTTListener.onNewData b d s st in
  MQTTListener.published (MQTTListener.emitted st st')
  = [ ({| MQTTListener.topic := MQTTListener.ha_topic p s "config";
          MQTTListener.payload :=
            MQTTListener.Json
              (MQTTListener.ha_config_payload
                 (MQTTListener.ha_topic p s "state") s);
          MQTTListener.qos := 0; MQTTListener.retain := true |}, false) ]
  /\ MQTTListener.logged_error (MQTTListener.emitted st st') = true.
Proof.
  intros Hha st Hready Hfail st'.
  assert (Hv : MQTTListener.values st = []).
  { apply ha_never_records. now rewrite Hha. }
  destruct (deliver_invariants b rs (MQTTListener.init b p)) as (Hp & _).
  destruct (init_params_values b p) as (Hp0 & _).
  fold st in Hp. rewrite Hp0 in Hp.
  unfold st', MQTTListener.onNewData. rewrite Hp, Hha.
  cbn [String.eqb Ascii.eqb Bool.eqb].
  unfold MQTTListener.sendHomeAssistantMessage, MQTTListener.is_new.
  rewrite Hv, Hready, Hp. cbn [PyDict.contains PyDict.get negb].
  unfold MQTTListener.try_except, MQTTListener.bind, MQTTListener.log,
    MQTTListener.publish, MQTTListener.emit.
  cbn [fst snd MQTTListener.calls MQTTListener.events]. rewrite Hfail.
  unfold MQTTListener.emitted. cbn [snd MQTTListener.events].
  rewrite <- !app_assoc, skipn_emitted. split; reflexivity.
Qed.

Lemma mqtt_ha_failed_config_drops_state_witness :
  let st := MQTTListener.init flaky_broker [] in
  let st' := MQTTListener.onNewData flaky_broker (reading 550 100) garden st in
  map (fun mo => (MQTTListener.topic (fst mo), snd mo))
    (MQTTListener.published (MQTTListener.emitted st st'))
  = [("homeassistant/sensor/pylarexx_3/config", false)]
  /\ MQTTListener.logged_error (MQTTListener.emitted st st') = true.
Proof.
  intros st st'.
  destruct (mqtt_ha_failed_config_drops_state flaky_broker [] []
              (reading 550 100) garden eq_refl eq_refl eq_refl) as [H1 H2].
  split; [|exact H2].
  exact (f_equal (map (fun mo => (MQTTListener.topic (fst mo), snd mo))) H1).
Defined.

(** ** Topics *)

Lemma parse_fmt_d (z : Z) : parse_d (PyFormat.fmt_d z) = Some z.
Proof.
  unfold parse_d, PyFormat.fmt_d.
  rewrite NilZero.isi.
  - simpl. now rewrite DecimalZ.of_to.
  - destruct z; simpl; intros [= H]; try discriminate;
      now apply DecimalPos.Unsigned.to_uint_nonnil in H.
  - destruct z; simpl; intros [= H]; try discriminate;
      now apply DecimalPos.Unsigned.to_uint_nonnil in H.
Qed.

Lemma append_inv_head (a x y : string) : a ++ x = a ++ y -> x = y.
Proof.
  induction a as [|c a IH]; simpl; [auto|]. intros [= H]. auto.
Qed.

Lemma length_append (x y : string) :
  String.length (x ++ y) = (String.length x + String.length y)%nat.
Proof. induction x as [|c x IH]; simpl; auto. Qed.

Lemma append_inv_tail (s x y : string) : x ++ s = y ++ s -> x = y.
Proof.
  revert y. induction x as [|c x IH]; intros [|c' y] H; simpl in *.
  - reflexivity.
  - apply (f_equal String.length) in H. simpl in H.
    rewrite length_append in H. lia.
  - apply (f_equal String.length) in H. simpl in H.
    rewrite length_append in H. lia.
  - injection H as -> H. f_equal. now apply IH.
Qed.

(** X13. The number in a topic tells sensors apart: [%d] can be read
    back, so under the same parameters two sensors with different
    displayids never share a home-assistant topic (config or state) nor a
    homie node, also when one number begins with the other (3 and 31). *)
Theorem topics_identify_displayid
  (p : Params) (s1 s2 : Sensor) (leaf root : string) :
  displayid s1 <> displayid s2 ->
  MQTTListener.ha_topic p s1 leaf <> MQTTListener.ha_topic p s2 leaf
  /\ MQTTListener.homie_node root (displayid s1)
     <> MQTTListener.homie_node root (displayid s2).
Proof.
  assert (Hinj : forall a c, PyFormat.fmt_d a = PyFormat.fmt_d c -> a = c).
  { intros a c H. apply (f_equal parse_d) in H.
    rewrite !parse_fmt_d in H. now injection H. }
  intros Hne. split; intros H; apply Hne, Hinj.
  - unfold MQTTListener.ha_topic in H.
    repeat apply append_inv_head in H.
    now apply append_inv_tail in H.
  - unfold MQTTListener.homie_node in H.
    now repeat apply append_inv_head in H.
Qed.

Lemma topics_identify_displayid_witness :
  "homeassistant/sensor/pylarexx_3/state"
  <> "homeassistant/sensor/pylarexx_31/state"
  /\ "homie/pylarexx/sensor_3" <> "homie/pylarexx/sensor_31".
Proof.
  apply (topics_identify_displayid [] garden cellar "state" "homie/pylarexx").
  discriminate.
Defined.

Lemma topics_app (x y : list MQTTListener.Event) :
  MQTTListener.topics (x ++ y)
  = (MQTTListener.topics x ++ MQTTListener.topics y)%list.
Proof.
  unfold MQTTListener.topics. now rewrite published_app, map_app.
Qed.

Lemma ha_reliable_step (b : MQTTListener.Broker) (d : Data) (s : Sensor)
  (st : MQTTListener.state) :
  (forall n, MQTTListener.publish_ok b n = true) ->
  params_get (MQTTListener.params st) "payload_format" "home-assistant"
  = "home-assistant" ->
  MQTTListener.ready st = true ->
  MQTTListener.values st = [] ->
  MQTTListener.topics
    (MQTTListener.events (MQTTListener.onNewData b d s st))
  = (MQTTListener.topics (MQTTListener.events st)
     ++ [ MQTTListener.ha_topic (MQTTListener.params st) s "config";
          MQTTListener.ha_topic (MQTTListener.params st) s "state" ])%list.
Proof.
  intros Hb Hha Hready Hv.
  unfold MQTTListener.onNewData. rewrite Hha.
  cbn [String.eqb Ascii.eqb Bool.eqb].
  unfold MQTTListener.sendHomeAssistantMessage, MQTTListener.is_new.
  rewrite Hv, Hready. cbn [PyDict.contains PyDict.get negb].
  unfold MQTTListener.try_except, MQTTListener.bind, MQTTListener.log,
    MQTTListener.publish, MQTTListener.emit.
  cbn [fst snd MQTTListener.calls MQTTListener.events]. rewrite !Hb.
  cbn [fst snd MQTTListener.calls MQTTListener.events].
  rewrite <- !app_assoc, topics_app. reflexivity.
Qed.

(** X14. Under the home-assistant convention, with a connected publisher
    and a transport that accepts every message, every delivery publishes
    the config message of its sensor and then its state payload, however
    often the sensor was seen before: a run publishes two messages per
    reading. *)
Theorem mqtt_ha_config_with_every_reading
  (b : MQTTListener.Broker) (p : Params) (rs : list (Data * Sensor)) :
  params_get p "payload_format" "home-assistant" = "home-assistant" ->
  MQTTListener.connect_ok b = true ->
  MQTTListener.loop_start_ok b = true ->
  (forall n, MQTTListener.publish_ok b n = true) ->
  MQTTListener.topics
    (MQTTListener.events
       (MQTTListener.deliver b rs (MQTTListener.init b p)))
  = flat_map (fun r => [ MQTTListener.ha_topic p (snd r) "config";
                         MQTTListener.ha_topic p (snd r) "state" ]) rs.
Proof.
  intros Hha Hc Hl Hb.
  destruct (init_params_values b p) as (Hp & Hv & Hr & He).
  rewrite Hc, Hl in Hr, He. simpl in Hr, He.
  assert (Hgen : forall rs st,
            MQTTListener.params st = p -> MQTTListener.ready st = true ->
            MQTTListener.values st = [] ->
            MQTTListener.topics
              (MQTTListener.events (MQTTListener.deliver b rs st))
            = (MQTTListener.topics (MQTTListener.events st)
               ++ flat_map
                    (fun r => [ MQTTListener.ha_topic p (snd r) "config";
                                MQTTListener.ha_topic p (snd r) "state" ])
                    rs)%list).
  { clear rs. induction rs as [|[d s] rs IH]; intros st Hps Hrs Hvs; simpl.
    - now rewrite app_nil_r.
    - destruct (onNewData_any b d s st) as (Hp' & Hv' & Hr' & _).
      rewrite Hps, Hha in Hv'. simpl in Hv'.
      rewrite IH by congruence.
      rewrite ha_reliable_step by (auto; now rewrite Hps).
      rewrite Hps. now rewrite <- app_assoc. }
  rewrite (Hgen rs _ Hp Hr Hv), He. reflexivity.
Qed.

Lemma mqtt_ha_config_with_every_reading_witness :
  MQTTListener.topics
    (MQTTListener.events
       (MQTTListener.deliver MQTTListener.reliable
          [(reading 550 100, garden); (reading 560 200, garden)]
          (MQTTListener.init MQTTListener.reliable [])))
  = flat_map (fun r => [ MQTTListener.ha_topic [] (snd r) "config";
                         MQTTListener.ha_topic [] (snd r) "state" ])
      [(reading 550 100, garden); (reading 560 200, garden)].
Proof.
  apply (mqtt_ha_config_with_every_reading MQTTListener.reliable []
           [(reading 550 100, garden); (reading 560 200, garden)]);
    reflexivity.
Defined.

(** ** The MQTT publisher: a failed publish ends the delivery *)

Lemma forallb_removelast {A : Type} (f : A -> bool) (l : list A) :
  forallb f l = true -> forallb f (removelast l) = true.
Proof.
  induction l as [|x l IH]; simpl; [auto|].
  intros H. apply andb_true_iff in H. destruct H as [Hx Hl].
  destruct l as [|y l]; [reflexivity|].
  change (forallb f (x :: removelast (y :: l)) = true).
  simpl forallb at 1. rewrite Hx. now apply IH.
Qed.

Section Halting.
Import MQTTListener.
Variable b : Broker.

Lemma halts_ret {A} (a : A) : halts (ret a).
Proof. intros st. exists []. simpl. rewrite app_nil_r. auto. Qed.

Lemma halts_raise {A} e : halts (@raise A e).
Proof. intros st. exists []. simpl. rewrite app_nil_r. auto. Qed.

Lemma halts_log l t : halts (log l t).
Proof. intros st. exists [Log l t]. simpl. auto. Qed.

Lemma halts_publish t pl q r : halts (publish b t pl q r).
Proof.
  intros st. eexists. simpl. split; [reflexivity|]. split; [reflexivity|].
  destruct (publish_ok b (calls st)); simpl; auto.
Qed.

Lemma halts_bind {A B} (m : M A) (k : A -> M B) :
  halts m -> (forall a, halts (k a)) -> halts (bind m k).
Proof.
  intros Hm Hk st. unfold bind.
  destruct (Hm st) as (X & HX & HR & HO).
  destruct (m st) as [[a|e] st1]; simpl in *.
  - destruct (Hk a st1) as (Y & HY & HR' & HO').
    exists (X ++ Y)%list. split; [|split].
    + rewrite HY, HX. now rewrite app_assoc.
    + rewrite published_app.
      destruct (published Y) as [|y ys] eqn:HP.
      * rewrite app_nil_r. apply forallb_removelast. now apply HO.
      * rewrite removelast_app by discriminate.
        rewrite forallb_app, HR'. now rewrite HO.
    + intros Hok. rewrite published_app, forallb_app.
      rewrite HO by reflexivity. now rewrite HO'.
  - exists X. repeat split; auto.
Qed.

Lemma halts_state {A} (f : state -> M A) :
  (forall st0, halts (f st0)) -> halts (fun st => f st st).
Proof. intros H st. apply (H st st). Qed.

Lemma halts_homie_sensor root sid s raw :
  halts (homie_sensor_messages b root sid s raw).
Proof.
  unfold homie_sensor_messages. cbv zeta.
  repeat (apply halts_bind; [|intros _]); apply halts_publish.
Qed.

Lemma halts_homie_all root items : halts (homie_all_sensors b root items).
Proof.
  induction items as [|[sid value] items IH]; simpl; [apply halts_ret|].
  apply halts_bind; [apply halts_log|]. intros _.
  apply halts_bind; [|intros _; exact IH].
  destruct (sensor_key value); [apply halts_homie_sensor | apply halts_raise].
Qed.

(** Under [try ... except: logging.error] the failed call stays the last
    one handed to the transport. *)
Lemma halts_try (body : M Datatypes.unit) t st :
  halts body ->
  exists X,
    events (snd (try_except body (fun _ => log ERROR t) st))
    = (events st ++ X)%list
    /\ forallb snd (removelast (published X)) = true.
Proof.
  intros Hm. unfold try_except.
  destruct (Hm st) as (X & HX & HR & _).
  destruct (body st) as [[a|e] st1]; simpl in *.
  - now exists X.
  - exists (X ++ [Log ERROR t])%list. split.
    + rewrite HX. now rewrite app_assoc.
    + rewrite published_app. simpl. now rewrite app_nil_r.
Qed.

End Halting.

(** X15. Within a delivery a call of [publish] that raises is the last
    one made: every message handed to the transport before the last one
    of the delivery was accepted. This holds under either convention and
    for every behaviour of the transport. *)
Theorem mqtt_failed_publish_ends_delivery
  (b : MQTTListener.Broker) (d : Data) (s : Sensor)
  (st : MQTTListener.state) :
  forallb snd
    (removelast
       (MQTTListener.published
          (MQTTListener.emitted st (MQTTListener.onNewData b d s st))))
  = true.
Proof.
  assert (Hgoal : exists X,
            MQTTListener.events (MQTTListener.onNewData b d s st)
            = (MQTTListener.events st ++ X)%list
            /\ forallb snd (removelast (MQTTListener.published X)) = true).
  { assert (Hnone : exists X,
              MQTTListener.events st = (MQTTListener.events st ++ X)%list
              /\ forallb snd (removelast (MQTTListener.published X)) = true).
    { exists []. now rewrite app_nil_r. }
    unfold MQTTListener.onNewData.
    destruct (String.eqb_spec
                (params_get (MQTTListener.params st) "payload_format"
                   "home-assistant") "homie") as [Hh|Hne].
    - rewrite Hh. cbn [String.eqb Ascii.eqb Bool.eqb].
      unfold MQTTListener.sendHomieMessages.
      cbn [MQTTListener.ready MQTTListener.params].
      destruct (MQTTListener.ready st); [|exact Hnone].
      match goal with |- context [MQTTListener.try_except ?body ?h ?st1] =>
        assert (Hb : halts body);
        [|destruct (halts_try body "Error publishing mqtt messages: %s"
                     st1 Hb) as (X & HX & HR);
          exists X; split; [exact HX | exact HR]] end.
      apply halts_bind; [apply halts_log|]. intros _.
      destruct (MQTTListener.is_new st s).
      + apply halts_bind; [apply halts_log|]. intros _.
        apply halts_bind.
        * unfold MQTTListener.homie_device_messages.
          apply (halts_state (fun st0 =>
            MQTTListener.bind
              (MQTTListener.publish b _ (MQTTListener.Text
                 (params_get (MQTTListener.params st0)
                    "homie_convention_version" "3.0")) 0 true)
              (fun _ => MQTTListener.bind
                 (MQTTListener.publish b _ (MQTTListener.Text
                    (params_get (MQTTListener.params st0) "mqtt_device_name"
                       "Python MQTT Adapter for Arexx Multilogger")) 0 true)
                 (fun _ => MQTTListener.bind
                    (MQTTListener.publish b _ (MQTTListener.Text
                       (MQTTListener.nodestring (MQTTListener.values st0)))
                       0 true)
                    (fun _ => MQTTListener.publish b _
                                (MQTTListener.Text "ready") 0 true))))).
          intros st0.
          repeat (apply halts_bind; [|intros _]); apply halts_publish.
        * intros _.
          apply (halts_state (fun st0 =>
            MQTTListener.homie_all_sensors b _ (MQTTListener.values st0))).
          intros st0. apply halts_homie_all.
      + apply halts_bind; [apply halts_log|]. intros _.
        apply halts_homie_sensor.
    - destruct (String.eqb _ "home-assistant"); [|exact Hnone].
      unfold MQTTListener.sendHomeAssistantMessage.
      destruct (MQTTListener.ready st); [|exact Hnone].
      match goal with |- context [MQTTListener.try_except ?body ?h ?st1] =>
        assert (Hb : halts body);
        [|destruct (halts_try body "Error publishing mqtt messages: %s"
                     st1 Hb) as (X & HX & HR);
          exists X; split; [exact HX | exact HR]] end.
      apply halts_bind.
      + destruct (MQTTListener.is_new st s); [|apply halts_ret].
        apply halts_bind; [apply halts_log|]. intros _. apply halts_publish.
      + intros _. apply halts_publish. }
  destruct Hgoal as (X & HX & HR).
  unfold MQTTListener.emitted. now rewrite HX, skipn_emitted.
Qed.
